(** * The axis coordinate codec of dev_team2

    A shallow embedding of the frontend's [frontend/src/lib/types.ts] (the
    coordinate type, [AXIS_KEYS], [createEmptyCoordinate],
    [coordinateToArray] and [coordinateToNuremberg]) and of the backend's
    coordinate model, [backend/models.py], which is present in compiled form
    ([backend/__pycache__/models.cpython-310.pyc]: the validators, the
    Nuremberg string, the two hashes and the completeness ratio).  The
    handlers of the web API (decode and validate) are not among the sources
    and follow the specification.

    Strings are byte strings (UTF-8); the two delimiters [|] and [,] are
    ASCII, so a byte-wise split is a split of the text. *)

From Stdlib Require Import Bool Arith List String Ascii NArith ZArith QArith Lia.
From Stdlib Require Import DecimalString.
Import ListNotations.

Local Open Scope string_scope.
Local Open Scope list_scope.

(** ** Data model: [AxisCoordinate] of types.ts *)

(** [sector: string | number] ([Union[str, int]] in the backend's model).
    A numeric sector is an integer code: [SectorNum n] is the [int] [n] in
    Python, and in JavaScript the Number that the numeral [n] denotes, which
    is [n] itself within the safe integer range and the nearest binary64
    value beyond it ([nearest_double]). *)
Inductive SectorValue : Type :=
| SectorStr (s : string)
| SectorNum (n : Z).

(** The interface: [pillar] and [sector] are required, the other fourteen
    properties are optional ([?:]); an absent property reads as [None]. *)
Record AxisCoordinate : Type := mkAxisCoordinate {
  pillar : string;
  sector : SectorValue;
  honeycomb : option (list string);
  branch : option string;
  node : option string;
  regulatory : option string;
  compliance : option string;
  compliance_level : option string;
  audit_requirements : option string;
  regulatory_framework : option string;
  role_knowledge : option string;
  role_sector : option string;
  role_regulatory : option string;
  role_compliance : option string;
  location : option string;
  temporal : option string
}.

(** [AxisKey = typeof AXIS_KEYS[number]]: the sixteen property names. *)
Inductive AxisKey : Type :=
| K_pillar | K_sector | K_honeycomb | K_branch | K_node
| K_regulatory | K_compliance | K_compliance_level | K_audit_requirements
| K_regulatory_framework
| K_role_knowledge | K_role_sector | K_role_regulatory | K_role_compliance
| K_location | K_temporal.

(** The string each key is in the source. *)
Definition axis_name (k : AxisKey) : string :=
  match k with
  | K_pillar => "pillar" | K_sector => "sector" | K_honeycomb => "honeycomb"
  | K_branch => "branch" | K_node => "node"
  | K_regulatory => "regulatory" | K_compliance => "compliance"
  | K_compliance_level => "compliance_level"
  | K_audit_requirements => "audit_requirements"
  | K_regulatory_framework => "regulatory_framework"
  | K_role_knowledge => "role_knowledge" | K_role_sector => "role_sector"
  | K_role_regulatory => "role_regulatory"
  | K_role_compliance => "role_compliance"
  | K_location => "location" | K_temporal => "temporal"
  end.

(** [export const AXIS_KEYS = [...] as const] *)
Definition AXIS_KEYS : list AxisKey :=
  [ K_pillar; K_sector; K_honeycomb; K_branch; K_node;
    K_regulatory; K_compliance; K_compliance_level; K_audit_requirements;
    K_regulatory_framework;
    K_role_knowledge; K_role_sector; K_role_regulatory; K_role_compliance;
    K_location; K_temporal ].

(** The values a property read can give: [string | number | string[]];
    the absent value ([undefined]) is [None] of the option around it. *)
Inductive AxisValue : Type :=
| VString (s : string)
| VNumber (n : Z)
| VArray (l : list string).

Definition sector_value (s : SectorValue) : AxisValue :=
  match s with
  | SectorStr s => VString s
  | SectorNum n => VNumber n
  end.

(** [coord[key]] *)
Definition coord_get (coord : AxisCoordinate) (key : AxisKey) : option AxisValue :=
  match key with
  | K_pillar => Some (VString (pillar coord))
  | K_sector => Some (sector_value (sector coord))
  | K_honeycomb => option_map VArray (honeycomb coord)
  | K_branch => option_map VString (branch coord)
  | K_node => option_map VString (node coord)
  | K_regulatory => option_map VString (regulatory coord)
  | K_compliance => option_map VString (compliance coord)
  | K_compliance_level => option_map VString (compliance_level coord)
  | K_audit_requirements => option_map VString (audit_requirements coord)
  | K_regulatory_framework => option_map VString (regulatory_framework coord)
  | K_role_knowledge => option_map VString (role_knowledge coord)
  | K_role_sector => option_map VString (role_sector coord)
  | K_role_regulatory => option_map VString (role_regulatory coord)
  | K_role_compliance => option_map VString (role_compliance coord)
  | K_location => option_map VString (location coord)
  | K_temporal => option_map VString (temporal coord)
  end.

(** ** Utility functions of types.ts *)

(** [createEmptyCoordinate()]: [{ pillar: '', sector: '' }]. *)
Definition createEmptyCoordinate : AxisCoordinate :=
  {| pillar := ""; sector := SectorStr "";
     honeycomb := None; branch := None; node := None;
     regulatory := None; compliance := None; compliance_level := None;
     audit_requirements := None; regulatory_framework := None;
     role_knowledge := None; role_sector := None; role_regulatory := None;
     role_compliance := None; location := None; temporal := None |}.

(** [AXIS_KEYS.map(key => coord[key])] *)
Definition coordinateToArray (coord : AxisCoordinate) : list (option AxisValue) :=
  map (fun key => coord_get coord key) AXIS_KEYS.

(** The decimal numeral of an integer, with a leading [-] below zero. *)
Definition decimal_numeral (n : Z) : string :=
  NilZero.string_of_int (Z.to_int n).

(** [Number.MAX_SAFE_INTEGER] *)
Definition MAX_SAFE_INTEGER : Z := 2 ^ 53 - 1.

(** [Number.isSafeInteger(n)] on an integer. *)
Definition isSafeInteger (n : Z) : bool :=
  (Z.abs n <=? MAX_SAFE_INTEGER)%Z.

(** The Number a non-negative integer numeral denotes: the nearest binary64
    value, a tie going to the even significand; [None] is [Infinity].  The
    significand [m] has 53 bits and the value is [m * 2 ^ e]. *)
Definition nearest_double (a : Z) : option Z :=
  (if a <? 2 ^ 53 then Some a else
   let e := Z.log2 a - 52 in
   let m := a / 2 ^ e in
   let r := a mod 2 ^ e in
   let half := 2 ^ (e - 1) in
   let m' := if (half <? r) || ((r =? half) && Z.odd m) then m + 1 else m in
   let x := m' * 2 ^ e in
   if x <? 2 ^ 1024 then Some x else None)%Z.

(** Is the binary64 value [x] (at least [2 ^ 53]) the Number that the
    integer [v] denotes?  [v] has to lie within half the distance to the
    neighbours of [x], the bounds included when the significand of [x] is
    even; the neighbour below a power of two is half as far.  All bounds are
    doubled to stay in the integers. *)
Definition rounds_to (x v : Z) : bool :=
  (let e := Z.log2 x - 52 in
   let m := x / 2 ^ e in
   let above := 2 ^ e in
   let below := if m =? 2 ^ 52 then 2 ^ (e - 1) else 2 ^ e in
   if Z.even m
   then (2 * x - below <=? 2 * v) && (2 * v <=? 2 * x + above)
   else (2 * x - below <? 2 * v) && (2 * v <? 2 * x + above))%Z.

(** Step 5 of [Number::toString]: the integers [n], [k], [s] with [k] as
    small as possible such that [s * 10 ^ (n - k)] denotes [x], the nearest
    to [x] when there are several and the even [s] when two are as near.
    The fewest digits go with the largest power of ten [10 ^ p], [p = n - k],
    that has a multiple denoting [x]; that multiple is the one just below
    [x] or the one just above.  The result is [s * 10 ^ p] and [p]. *)
Fixpoint shortest_digits (p : nat) (x : Z) : Z * nat :=
  match p with
  | O => (x, O)
  | S p' =>
      (let P := 10 ^ Z.of_nat p in
       let f := x / P * P in
       let c := f + P in
       if f =? x then (x, p) else
       match rounds_to x f, rounds_to x c with
       | true, true =>
           if x - f <? c - x then (f, p)
           else if c - x <? x - f then (c, p)
           else if Z.even (f / P) then (f, p) else (c, p)
       | true, false => (f, p)
       | false, true => (c, p)
       | false, false => shortest_digits p' x
       end)%Z
  end.

(** Steps 9 and 10 of [Number::toString], taken when [n > 21]: the first
    digit of [s], a [.] and the other digits if there are any, then [e+]
    and [n - 1]. *)
Definition exponent_form (v : Z) (p : nat) : string :=
  let e := decimal_numeral (Z.of_nat (String.length (decimal_numeral v) - 1)) in
  match decimal_numeral (v / 10 ^ Z.of_nat p) with
  | String d EmptyString => String d ("e+" ++ e)
  | String d rest => String d ("." ++ rest ++ "e+" ++ e)
  | EmptyString => EmptyString
  end.

(** [Number.prototype.toString] on the Number an integer numeral denotes
    ([Number::toString] with radix 10).  A safe integer prints as its decimal
    numeral.  Beyond, the digits are the fewest that denote the same Number:
    followed by zeros up to 21 digits (step 6, [k <= n <= 21]), in exponent
    form from [1e+21] on, and [Infinity] past the largest finite value; a
    negative number is [-] and the text of its absolute value. *)
Definition Number_toString (n : Z) : string :=
  if isSafeInteger n then decimal_numeral n else
  let sign := if (n <? 0)%Z then "-" else "" in
  match nearest_double (Z.abs n) with
  | None => sign ++ "Infinity"
  | Some x =>
      let (v, p) := shortest_digits (String.length (decimal_numeral x)) x in
      sign ++ (if (v <? 10 ^ 21)%Z then decimal_numeral v
               else exponent_form v p)
  end.

(** [Array.prototype.join(sep)] on an array of strings. *)
Definition join (sep : string) (l : list string) : string :=
  String.concat sep l.

(** [a || b] on strings: the empty string is the only falsy one. *)
Definition or_else (a b : string) : string :=
  match a with
  | EmptyString => b
  | _ => a
  end.

(** [value?.toString()], with [undefined] as [None]; never reached with an
    array, which the [Array.isArray] branch takes first (an array's own
    [toString] is its comma join). *)
Definition opt_toString (value : option AxisValue) : option string :=
  match value with
  | None => None
  | Some (VString s) => Some s
  | Some (VNumber n) => Some (Number_toString n)
  | Some (VArray l) => Some (join "," l)
  end.

(** The body of the arrow function mapped over [AXIS_KEYS] in
    [coordinateToNuremberg]. *)
Definition nuremberg_slot (value : option AxisValue) : string :=
  match value with
  | Some (VArray l) => join "," l
  | _ =>
      match opt_toString value with
      | Some s => or_else s ""
      | None => ""
      end
  end.

(** [coordinateToNuremberg(coord)] *)
Definition coordinateToNuremberg (coord : AxisCoordinate) : string :=
  join "|" (map (fun key => nuremberg_slot (coord_get coord key)) AXIS_KEYS).

(** ** Splitting on a delimiter *)

(** [s.split(sep)] for a one-character separator: the empty string splits
    into one empty piece, and [n] separators give [n + 1] pieces. *)
Fixpoint split_on (sep : ascii) (s : string) : list string :=
  match s with
  | EmptyString => [EmptyString]
  | String c rest =>
      if Ascii.eqb c sep then EmptyString :: split_on sep rest
      else match split_on sep rest with
           | [] => [String c EmptyString]
           | piece :: pieces => String c piece :: pieces
           end
  end.

(** Does the character occur in the string? *)
Fixpoint contains_char (c : ascii) (s : string) : bool :=
  match s with
  | EmptyString => false
  | String c' rest => Ascii.eqb c' c || contains_char c rest
  end.

(** Number of occurrences of a character. *)
Fixpoint count_char (c : ascii) (s : string) : nat :=
  match s with
  | EmptyString => 0
  | String c' rest => (if Ascii.eqb c' c then 1 else 0) + count_char c rest
  end.

(** Is [needle] a contiguous part of [s]? *)
Fixpoint has_substring (needle s : string) : bool :=
  prefix needle s ||
  match s with
  | EmptyString => false
  | String _ rest => has_substring needle rest
  end.

Definition pipe : ascii := "|"%char.
Definition comma : ascii := ","%char.

(** A field value free of both delimiters. *)
Definition delimiter_free_string (s : string) : bool :=
  negb (contains_char pipe s) && negb (contains_char comma s).

Definition delimiter_free_value (v : option AxisValue) : bool :=
  match v with
  | None => true
  | Some (VString s) => delimiter_free_string s
  | Some (VNumber n) => delimiter_free_string (Number_toString n)
  | Some (VArray l) => forallb delimiter_free_string l
  end.

(** No field value of the coordinate contains [|] or [,]. *)
Definition delimiter_free (coord : AxisCoordinate) : bool :=
  forallb (fun key => delimiter_free_value (coord_get coord key)) AXIS_KEYS.

(** ** Decoding *)

Definition is_empty (s : string) : bool :=
  match s with
  | EmptyString => true
  | _ => false
  end.

(** An optional axis read back from its slot: encode writes an absent axis
    as the empty slot, so the empty slot reads back as absent. *)
Definition decode_slot (s : string) : option string :=
  if is_empty s then None else Some s.

Definition decode_honeycomb (s : string) : option (list string) :=
  if is_empty s then None else Some (split_on comma s).

(** Modelled from the spec: the backend's decode (the handler behind
    [parseNurembergCoordinate], [POST /axis/parse]) is not among the
    sources.  "Splits on [|] into the 16 positional slots in canonical axis
    order, then splits honeycomb's slot on [,]"; a string that does not have
    16 slots is rejected.  The spec does not say what an empty slot of an
    optional axis becomes; being the inverse of encode, it is the absent
    axis ([decode_slot]). *)
Definition decode (nurembergString : string) : option AxisCoordinate :=
  match split_on pipe nurembergString with
  | [s1; s2; s3; s4; s5; s6; s7; s8; s9; s10; s11; s12; s13; s14; s15; s16] =>
      Some {| pillar := s1; sector := SectorStr s2;
              honeycomb := decode_honeycomb s3;
              branch := decode_slot s4; node := decode_slot s5;
              regulatory := decode_slot s6; compliance := decode_slot s7;
              compliance_level := decode_slot s8;
              audit_requirements := decode_slot s9;
              regulatory_framework := decode_slot s10;
              role_knowledge := decode_slot s11;
              role_sector := decode_slot s12;
              role_regulatory := decode_slot s13;
              role_compliance := decode_slot s14;
              location := decode_slot s15; temporal := decode_slot s16 |}
  | _ => None
  end.

(** The coordinates [decode] can give back: the sector is a string, no
    optional axis is present but empty, and the honeycomb is neither the
    empty array nor the array of one empty string (both render as the
    empty slot). *)
Definition present_nonempty (v : option string) : bool :=
  match v with
  | Some s => negb (is_empty s)
  | None => true
  end.

Definition honeycomb_normal (h : option (list string)) : bool :=
  match h with
  | None => true
  | Some l => negb (is_empty (join "," l))
  end.

Definition sector_is_string (s : SectorValue) : bool :=
  match s with
  | SectorStr _ => true
  | SectorNum _ => false
  end.

Definition normal_form (coord : AxisCoordinate) : bool :=
  sector_is_string (sector coord) && honeycomb_normal (honeycomb coord)
  && present_nonempty (branch coord) && present_nonempty (node coord)
  && present_nonempty (regulatory coord) && present_nonempty (compliance coord)
  && present_nonempty (compliance_level coord)
  && present_nonempty (audit_requirements coord)
  && present_nonempty (regulatory_framework coord)
  && present_nonempty (role_knowledge coord)
  && present_nonempty (role_sector coord)
  && present_nonempty (role_regulatory coord)
  && present_nonempty (role_compliance coord)
  && present_nonempty (location coord) && present_nonempty (temporal coord).

(** ** Validation *)

(** Fallible code: a value, or the error raised. *)
Inductive result (E A : Type) : Type :=
| Ok (a : A)
| Raise (e : E).
Arguments Ok {E A} a.
Arguments Raise {E A} e.

(** What a successful parse of a datetime gives; the offset from UTC is in
    microseconds, absent for a naive datetime. *)
Record DateTime : Type := mkDateTime {
  dt_year : N; dt_month : N; dt_day : N;
  dt_hour : N; dt_minute : N; dt_second : N; dt_microsecond : N;
  dt_utcoffset : option Z
}.

(** A field-scoped error: the axis it is about and what was wrong. *)
Record ValidationError : Type := mkValidationError {
  error_axis : AxisKey;
  error_detail : string
}.

(** The message the caller renders; it names the axis by its key. *)
Definition error_message (e : ValidationError) : string :=
  axis_name (error_axis e) ++ ": " ++ error_detail e.

(** [{ valid: boolean; errors?: string[] }] of api.ts: the errors array is
    present only when invalid. *)
Record ValidationReport : Type := mkValidationReport {
  valid : bool;
  errors : option (list string)
}.

(** [s.replace(old, new)] of Python for a one-character [old]: every
    occurrence is replaced. *)
Fixpoint str_replace (old : ascii) (new : string) (s : string) : string :=
  match s with
  | EmptyString => EmptyString
  | String c rest =>
      if Ascii.eqb c old then new ++ str_replace old new rest
      else String c (str_replace old new rest)
  end.

(** The specification's words for the same step: "UTC [Z] suffix
    normalized to [+00:00] before parsing".  Only a final [Z] is
    rewritten. *)
Fixpoint normalize_utc_suffix (s : string) : string :=
  match s with
  | EmptyString => EmptyString
  | String c EmptyString =>
      if Ascii.eqb c "Z"%char then "+00:00" else s
  | String c rest => String c (normalize_utc_suffix rest)
  end.

Section Validation.

(** The datetime parser of the platform ([datetime.fromisoformat]):
    [None] when it raises [ValueError]. *)
Variable fromisoformat : string -> option DateTime.

(** [AxisCoordinate.validate_pillar] of models.py, present in compiled
    form ([backend/__pycache__/models.cpython-310.pyc]):
    [if v is None: return v]; [if isinstance(v, str) and len(v) > 0:
    return v]; [return v].  Every path returns the value. *)
Definition validate_pillar (v : string) : result string string :=
  if negb (is_empty v) then Ok v else Ok v.

(** [AxisCoordinate.validate_temporal] of models.py (compiled form):
    [if v is None: return v];
    [try: datetime.fromisoformat(v.replace('Z', '+00:00')); return v];
    [except ValueError: raise ValueError("Temporal must be valid ISO
    8601 format")]. *)
Definition validate_temporal (v : option string)
  : result string (option string) :=
  match v with
  | None => Ok v
  | Some t =>
      match fromisoformat (str_replace "Z" "+00:00" t) with
      | Some _ => Ok v
      | None => Raise "Temporal must be valid ISO 8601 format"
      end
  end.

(** Modelled from the spec: the structural check of [validate],
    "pillar/sector non-empty" (the handler is not among the sources).  A
    numeric sector is never empty. *)
Definition check_non_empty (v : option AxisValue) : result string unit :=
  match v with
  | Some (VString EmptyString) | None => Raise "must be non-empty"
  | _ => Ok tt
  end.

(** A check run inside [validate]: the error it raises is caught and
    reported against its axis. *)
Definition findings {A : Type} (key : AxisKey) (r : result string A)
  : list string :=
  match r with
  | Ok _ => []
  | Raise detail => [error_message (mkValidationError key detail)]
  end.

(** Modelled from the spec: [validate], the handler behind
    [validateCoordinate] ([POST /axis/validate]), is not among the
    sources.  "Re-applies the same per-field checks as [parse] plus
    structural checks (pillar/sector non-empty); returns all violations
    rather than failing fast"; "[validate] never raises"; a "field-scoped
    validation error naming the axis".  The per-field checks are the two
    validators of the model. *)
Definition validate (coordinate : AxisCoordinate)
  : result string ValidationReport :=
  let found :=
    findings K_pillar (validate_pillar (pillar coordinate))
    ++ findings K_temporal (validate_temporal (temporal coordinate))
    ++ findings K_pillar (check_non_empty (coord_get coordinate K_pillar))
    ++ findings K_sector (check_non_empty (coord_get coordinate K_sector)) in
  match found with
  | [] => Ok {| valid := true; errors := None |}
  | _ => Ok {| valid := false; errors := Some found |}
  end.

(** A valid coordinate: one [validate] reports as valid. *)
Definition is_valid (coordinate : AxisCoordinate) : bool :=
  match validate coordinate with
  | Ok report => valid report
  | Raise _ => false
  end.

End Validation.

(** ** The datetime parser of the platform

    [datetime.fromisoformat] of CPython 3.10, the version models.py was
    compiled by, function by function: the date [YYYY-MM-DD], one
    separator character, the time [HH[:MM[:SS[.fff[fff]]]]] and a zone
    [+HH:MM[:SS[.ffffff]]], with what the scanner lets through beyond that
    format (one character before the zone sign, [:] before the fraction)
    and the ranges the [datetime] and [timezone] constructors check.  The
    text is its UTF-8 bytes, as the parser reads it. *)
Module Iso8601.

Definition bind {A B : Type} (o : option A) (k : A -> option B) : option B :=
  match o with
  | Some a => k a
  | None => None
  end.

Notation "x <- e ;; k" := (bind e (fun x => k))
  (at level 61, e at next level, right associativity).

Local Open Scope N_scope.

Definition digit_value (c : ascii) : option N :=
  let n := N_of_ascii c in
  if (48 <=? n) && (n <=? 57) then Some (n - 48) else None.

(** [parse_digits(ptr, var, num_digits)]: exactly [k] decimal digits, and
    what follows them. *)
Fixpoint parse_digits (k : nat) (acc : N) (s : string) : option (N * string) :=
  match k with
  | O => Some (acc, s)
  | S k' =>
      match s with
      | String c rest =>
          d <- digit_value c ;; parse_digits k' (10 * acc + d) rest
      | EmptyString => None
      end
  end.

Definition expect (c : ascii) (s : string) : option string :=
  match s with
  | String c' rest => if Ascii.eqb c c' then Some rest else None
  | EmptyString => None
  end.

Definition is_leap (y : N) : bool :=
  (y mod 4 =? 0) && negb (y mod 100 =? 0) || (y mod 400 =? 0).

Definition days_in_month (y m : N) : N :=
  match m with
  | 2 => if is_leap y then 29 else 28
  | 4 | 6 | 9 | 11 => 30
  | _ => 31
  end.

(** What the loop of [parse_hh_mm_ss_ff] does once it has read the two
    digits of a component. *)
Inductive Component : Type :=
| Return (rv : bool)
| Continue (rest : string)
| Break (rest : string)
| Malformed.

(** [char c = *(p++); if (p >= p_end) return c != '\0';
    else if (c == ':') continue; else if (c == '.') break;
    else return -4;] on the text [r] between [p] and [p_end].
    [ends_string] says that [p_end] is the end of the string, not a zone
    sign.  With nothing left, [c] is the character at [p_end]; with one
    character left it is that character, whatever it is. *)
Definition after_digits (ends_string : bool) (r : string) : Component :=
  match r with
  | EmptyString => Return (negb ends_string)
  | String c EmptyString => Return (negb (Ascii.eqb c Ascii.zero))
  | String c rest =>
      if Ascii.eqb c ":" then Continue rest
      else if Ascii.eqb c "." then Break rest
      else Malformed
  end.

(** [.fff[fff]]: three or six digits up to [p_end], then
    [return *p != '\0']. *)
Definition parse_fraction (ends_string : bool) (r : string)
  : option (N * bool) :=
  match String.length r with
  | 3%nat => fr <- parse_digits 3 0 r ;; Some (fst fr * 1000, negb ends_string)
  | 6%nat => fr <- parse_digits 6 0 r ;; Some (fst fr, negb ends_string)
  | _ => None
  end.

(** [parse_hh_mm_ss_ff(tstr, tstr_end, ...)]: hour, minute, second,
    microsecond and the return code ([true] for 1, [None] for a negative
    one).  After the third component a [:] leaves the loop like a [.]. *)
Definition parse_hh_mm_ss_ff (tstr : string) (ends_string : bool)
  : option (N * N * N * N * bool) :=
  let fraction (h m s : N) (r : string) :=
    f <- parse_fraction ends_string r ;;
    Some (h, m, s, fst (f : N * bool), snd f) in
  hr <- parse_digits 2 0 tstr ;;
  let (h, r) := (hr : N * string) in
  match after_digits ends_string r with
  | Return rv => Some (h, 0, 0, 0, rv)
  | Malformed => None
  | Break r => fraction h 0 0 r
  | Continue r =>
      mr <- parse_digits 2 0 r ;;
      let (m, r) := (mr : N * string) in
      match after_digits ends_string r with
      | Return rv => Some (h, m, 0, 0, rv)
      | Malformed => None
      | Break r => fraction h m 0 r
      | Continue r =>
          sr <- parse_digits 2 0 r ;;
          let (s, r) := (sr : N * string) in
          match after_digits ends_string r with
          | Return rv => Some (h, m, s, 0, rv)
          | Malformed => None
          | Break r | Continue r => fraction h m s r
          end
      end
  end.

(** The scan for [tzinfo_pos]: the text before the first [+] or [-], and,
    when there is one, whether it is [-] and the text after it. *)
Fixpoint find_sign (s : string) : string * option (bool * string) :=
  match s with
  | EmptyString => (EmptyString, None)
  | String c rest =>
      if Ascii.eqb c "+" then (EmptyString, Some (false, rest))
      else if Ascii.eqb c "-" then (EmptyString, Some (true, rest))
      else let (before, zone) := find_sign rest in (String c before, zone)
  end.

(** [tzinfo_from_isoformat_results]: an offset of no seconds is UTC;
    otherwise [timezone(timedelta(seconds, microseconds))], which is
    refused unless strictly between minus and plus 24 hours.  In
    microseconds. *)
Definition tzinfo (negative : bool) (seconds microseconds : N) : option Z :=
  if seconds =? 0 then Some 0%Z else
  let delta := Z.of_N (seconds * 1000000 + microseconds) in
  if (delta <? 24 * 3600 * 1000000)%Z
  then Some (if negative then (- delta)%Z else delta)
  else None.

(** [parse_isoformat_time]: the time up to the zone sign, then the zone,
    whose length with its sign is 6, 9 or 16.  Without a zone the time has
    to end the string; before a zone sign its return code is not looked
    at. *)
Definition parse_isoformat_time (dtstr : string)
  : option (N * N * N * N * option Z) :=
  let (before, zone) := find_sign dtstr in
  match zone with
  | None =>
      c <- parse_hh_mm_ss_ff before true ;;
      let '(h, m, s, f, rv) := (c : N * N * N * N * bool) in
      if rv then None else Some (h, m, s, f, None)
  | Some (negative, tz) =>
      c <- parse_hh_mm_ss_ff before false ;;
      let '(h, m, s, f, _) := (c : N * N * N * N * bool) in
      let tzlen := S (String.length tz) in
      if ((tzlen =? 6) || (tzlen =? 9) || (tzlen =? 16))%nat then
        z <- parse_hh_mm_ss_ff tz true ;;
        let '(zh, zm, zs, zf, rv) := (z : N * N * N * N * bool) in
        if rv then None else
        off <- tzinfo negative ((zh * 60 + zm) * 60 + zs) zf ;;
        Some (h, m, s, f, Some off)
      else None
  end.

Fixpoint drop (k : nat) (s : string) : string :=
  match k, s with
  | S k', String _ rest => drop k' rest
  | _, _ => s
  end.

(** The separator after the date is one character: one byte, or the two,
    three or four bytes its first byte announces. *)
Definition skip_separator (r : string) : string :=
  match r with
  | EmptyString => EmptyString
  | String b t =>
      let n := N_of_ascii b in
      if n <? 128 then t
      else if N.land n 240 =? 224 then drop 2 t
      else if N.land n 240 =? 240 then drop 3 t
      else drop 1 t
  end.

(** The checks of the [datetime] constructor. *)
Definition new_datetime (y mo d h mi s f : N) (off : option Z)
  : option DateTime :=
  if (1 <=? y) && (1 <=? mo) && (mo <=? 12)
     && (1 <=? d) && (d <=? days_in_month y mo)
     && (h <=? 23) && (mi <=? 59) && (s <=? 59)
  then Some (mkDateTime y mo d h mi s f off)
  else None.

(** [datetime.fromisoformat(date_string)]; [None] is [ValueError]. *)
Definition fromisoformat (date_string : string) : option DateTime :=
  yr <- parse_digits 4 0 date_string ;;
  let (y, r) := (yr : N * string) in
  r <- expect "-" r ;;
  mr <- parse_digits 2 0 r ;;
  let (mo, r) := (mr : N * string) in
  r <- expect "-" r ;;
  dr <- parse_digits 2 0 r ;;
  let (d, r) := (dr : N * string) in
  match r with
  | EmptyString => new_datetime y mo d 0 0 0 0 None
  | String _ _ =>
      c <- parse_isoformat_time (skip_separator r) ;;
      let '(h, mi, s, f, off) :=
        (c : N * N * N * N * option Z) in
      new_datetime y mo d h mi s f off
  end.

End Iso8601.

(** ** SHA-256 (FIPS 180-4), for the two content hashes

    Words are 32-bit integers kept in [Z], every addition reduced modulo
    [2^32]. *)
Module SHA256.

Local Open Scope Z_scope.

Definition wrap32 (x : Z) : Z := x mod 4294967296.

Definition rotr (n x : Z) : Z :=
  Z.lor (Z.shiftr x n) (wrap32 (Z.shiftl x (32 - n))).

Definition ch (x y z : Z) : Z :=
  Z.lxor (Z.land x y) (Z.land (Z.lxor x 0xffffffff) z).

Definition maj (x y z : Z) : Z :=
  Z.lxor (Z.lxor (Z.land x y) (Z.land x z)) (Z.land y z).

Definition big_sigma0 (x : Z) : Z :=
  Z.lxor (Z.lxor (rotr 2 x) (rotr 13 x)) (rotr 22 x).

Definition big_sigma1 (x : Z) : Z :=
  Z.lxor (Z.lxor (rotr 6 x) (rotr 11 x)) (rotr 25 x).

Definition small_sigma0 (x : Z) : Z :=
  Z.lxor (Z.lxor (rotr 7 x) (rotr 18 x)) (Z.shiftr x 3).

Definition small_sigma1 (x : Z) : Z :=
  Z.lxor (Z.lxor (rotr 17 x) (rotr 19 x)) (Z.shiftr x 10).

(** The primes below [bound], by trial division. *)
Definition is_prime (n : nat) : bool :=
  forallb (fun d => negb (n mod d =? 0)%nat) (seq 2 (n - 2)).

Definition primes_below (bound : nat) : list Z :=
  map Z.of_nat (filter is_prime (seq 2 (bound - 2))).

(** The largest [r] below [2^bits] with [r^3 <= n], one bit at a time. *)
Definition cube_root (bits : nat) (n : Z) : Z :=
  fold_left
    (fun r i =>
       let r' := r + Z.shiftl 1 (Z.of_nat i) in
       if r' * r' * r' <=? n then r' else r)
    (rev (seq 0 bits)) 0.

(** The first 32 bits of the fractional part of a root of [p]. *)
Definition cube_root_fraction (p : Z) : Z :=
  wrap32 (cube_root 36 (Z.shiftl p 96)).

Definition square_root_fraction (p : Z) : Z :=
  wrap32 (Z.sqrt (Z.shiftl p 64)).

(** The round constants: the fractions of the cube roots of the first
    sixty-four primes (2 to 311). *)
Definition round_constants : list Z :=
  Eval vm_compute in map cube_root_fraction (primes_below 312).

(** The eight working variables, and the chaining value. *)
Definition state : Type := (Z * Z * Z * Z * Z * Z * Z * Z)%type.

(** The initial hash value: the fractions of the square roots of the
    first eight primes (2 to 19). *)
Definition initial_words : list Z :=
  Eval vm_compute in map square_root_fraction (primes_below 20).

Definition initial_state : state :=
  match initial_words with
  | [a; b; c; d; e; f; g; h] => (a, b, c, d, e, f, g, h)
  | _ => (0, 0, 0, 0, 0, 0, 0, 0)
  end.

(** Padding: the byte [0x80], zeros up to 56 modulo 64, then the bit
    length as 8 big-endian bytes. *)
Definition big_endian_64 (n : Z) : list Z :=
  map (fun i => Z.land (Z.shiftr n (8 * i)) 255) [7; 6; 5; 4; 3; 2; 1; 0].

Definition pad (msg : list Z) : list Z :=
  let len := Z.of_nat (List.length msg) in
  let zeros := Z.to_nat ((55 - len) mod 64) in
  msg ++ [128] ++ repeat 0 zeros ++ big_endian_64 (8 * len).

(** Bytes to big-endian 32-bit words. *)
Fixpoint words_of_bytes (l : list Z) : list Z :=
  match l with
  | b0 :: b1 :: b2 :: b3 :: rest =>
      (((b0 * 256 + b1) * 256 + b2) * 256 + b3) :: words_of_bytes rest
  | _ => []
  end.

(** The message schedule: [n] further words appended to the sixteen of
    the block. *)
Fixpoint expand (n : nat) (w : list Z) : list Z :=
  match n with
  | O => w
  | S n' =>
      let t := List.length w in
      let at_back (i : nat) := nth (t - i) w 0 in
      expand n'
        (w ++ [wrap32 (small_sigma1 (at_back 2%nat) + at_back 7%nat
                       + small_sigma0 (at_back 15%nat) + at_back 16%nat)])
  end.

Definition round (s : state) (kw : Z * Z) : state :=
  let '(a, b, c, d, e, f, g, h) := s in
  let (k, w) := kw in
  let t1 := wrap32 (h + big_sigma1 e + ch e f g + k + w) in
  let t2 := wrap32 (big_sigma0 a + maj a b c) in
  (wrap32 (t1 + t2), a, b, c, wrap32 (d + t1), e, f, g).

Definition compress (s : state) (block : list Z) : state :=
  let w := expand 48 block in
  let '(a, b, c, d, e, f, g, h) :=
    fold_left round (combine round_constants w) s in
  let '(a0, b0, c0, d0, e0, f0, g0, h0) := s in
  (wrap32 (a0 + a), wrap32 (b0 + b), wrap32 (c0 + c), wrap32 (d0 + d),
   wrap32 (e0 + e), wrap32 (f0 + f), wrap32 (g0 + g), wrap32 (h0 + h)).

(** One block of sixteen words after the other. *)
Fixpoint blocks (n : nat) (s : state) (w : list Z) : state :=
  match n with
  | O => s
  | S n' => blocks n' (compress s (firstn 16 w)) (skipn 16 w)
  end.

Definition digest (msg : list Z) : state :=
  let w := words_of_bytes (pad msg) in
  blocks (List.length w / 16) initial_state w.

Definition hex_digit (n : Z) : ascii :=
  match n with
  | 0 => "0" | 1 => "1" | 2 => "2" | 3 => "3" | 4 => "4" | 5 => "5"
  | 6 => "6" | 7 => "7" | 8 => "8" | 9 => "9" | 10 => "a" | 11 => "b"
  | 12 => "c" | 13 => "d" | 14 => "e" | _ => "f"
  end%char.

(** A 32-bit word as eight lower-case hexadecimal digits. *)
Definition hex_word (w : Z) : string :=
  string_of_list_ascii
    (map (fun i => hex_digit (Z.land (Z.shiftr w (4 * i)) 15))
         [7; 6; 5; 4; 3; 2; 1; 0]).

Definition bytes_of_string (s : string) : list Z :=
  map (fun c => Z.of_N (N_of_ascii c)) (list_ascii_of_string s).

(** [hashlib.sha256(s.encode('utf-8')).hexdigest()] *)
Definition hexdigest (s : string) : string :=
  let '(a, b, c, d, e, f, g, h) := digest (bytes_of_string s) in
  (hex_word a ++ hex_word b ++ hex_word c ++ hex_word d
   ++ hex_word e ++ hex_word f ++ hex_word g ++ hex_word h)%string.

End SHA256.

(** ** Derived functions of the backend model

    models.py is present in compiled form only
    ([backend/__pycache__/models.cpython-310.pyc]); each method is given
    with the Python its bytecode stands for.  The model has the fields of
    the interface above ([pillar: str] and [sector: Union[str, int]]
    required, the others [Optional] with default [None]) and its
    [AXIS_KEYS] lists the same sixteen keys in the same order. *)

(** [as_list]: [return [getattr(self, key, None) for key in AXIS_KEYS]] *)
Definition as_list (coordinate : AxisCoordinate) : list (option AxisValue) :=
  map (coord_get coordinate) AXIS_KEYS.

(** One value of [nuremberg_number]: [""] for [None],
    [",".join(str(v) for v in value)] for a list, [str(value)]
    otherwise; [str] of an [int] is its decimal numeral, whatever its
    size. *)
Definition axis_text (v : option AxisValue) : string :=
  match v with
  | None => ""
  | Some (VArray l) => join "," l
  | Some (VString s) => s
  | Some (VNumber n) => decimal_numeral n
  end.

(** [nuremberg_number]: the values of the axes in [AXIS_KEYS] order, each
    appended as [axis_text] gives it, then ["|".join(values)]. *)
Definition nuremberg_number (coordinate : AxisCoordinate) : string :=
  join "|" (map axis_text (as_list coordinate)).

(** A replacement field [{self.sector}] of an f-string: the text of a
    [str] sector, the decimal numeral of an [int] one. *)
Definition format_sector (s : SectorValue) : string :=
  match s with
  | SectorStr s => s
  | SectorNum n => decimal_numeral n
  end.

(** [x or ''] on an optional string. *)
Definition or_empty (v : option string) : string :=
  match v with
  | Some s => s
  | None => ""
  end.

(** [unified_system_id]:
    [core_data = f"{self.pillar}|{self.sector}|{self.location or ''}"];
    [return hashlib.sha256(core_data.encode('utf-8')).hexdigest()].
    The three attributes the method loads are the names that open
    [AXIS_KEYS], [pillar] and [sector], and its fifteenth, [location]. *)
Definition unified_system_id (coordinate : AxisCoordinate) : string :=
  let core_data :=
    (pillar coordinate ++ "|"
     ++ format_sector (sector coordinate) ++ "|"
     ++ or_empty (location coordinate))%string in
  SHA256.hexdigest core_data.

(** [coordinate_hash]:
    [return hashlib.sha256(self.nuremberg_number().encode('utf-8')).hexdigest()] *)
Definition coordinate_hash (coordinate : AxisCoordinate) : string :=
  SHA256.hexdigest (nuremberg_number coordinate).

(** The test of [get_filled_axes_count]:
    [value is not None and value != "" and value != []]. *)
Definition is_filled (v : option AxisValue) : bool :=
  match v with
  | None => false
  | Some (VString s) => negb (is_empty s)
  | Some (VNumber _) => true
  | Some (VArray l) => match l with [] => false | _ :: _ => true end
  end.

(** [get_filled_axes_count]: [count = 0]; for each key of [AXIS_KEYS],
    [count += 1] when the value passes the test; [return count]. *)
Definition get_filled_axes_count (coordinate : AxisCoordinate) : nat :=
  List.length (filter is_filled (as_list coordinate)).

(** [get_axis_completeness_ratio]:
    [return self.get_filled_axes_count() / len(AXIS_KEYS)].  A true
    division of a count by 16 is exact in binary floating point, so the
    rational is the float. *)
Definition get_axis_completeness_ratio (coordinate : AxisCoordinate) : Q :=
  Z.of_nat (get_filled_axes_count coordinate)
  # Pos.of_nat (List.length AXIS_KEYS).


(** ** Record updates and sample coordinates *)

(** [{ ...coord, sector: s }] *)
Definition set_sector (s : SectorValue) (coord : AxisCoordinate) : AxisCoordinate :=
  {| pillar := pillar coord; sector := s; honeycomb := honeycomb coord;
     branch := branch coord; node := node coord;
     regulatory := regulatory coord; compliance := compliance coord;
     compliance_level := compliance_level coord;
     audit_requirements := audit_requirements coord;
     regulatory_framework := regulatory_framework coord;
     role_knowledge := role_knowledge coord; role_sector := role_sector coord;
     role_regulatory := role_regulatory coord;
     role_compliance := role_compliance coord;
     location := location coord; temporal := temporal coord |}.

(** [{ ...coord, honeycomb: h }] *)
Definition set_honeycomb (h : option (list string)) (coord : AxisCoordinate)
  : AxisCoordinate :=
  {| pillar := pillar coord; sector := sector coord; honeycomb := h;
     branch := branch coord; node := node coord;
     regulatory := regulatory coord; compliance := compliance coord;
     compliance_level := compliance_level coord;
     audit_requirements := audit_requirements coord;
     regulatory_framework := regulatory_framework coord;
     role_knowledge := role_knowledge coord; role_sector := role_sector coord;
     role_regulatory := role_regulatory coord;
     role_compliance := role_compliance coord;
     location := location coord; temporal := temporal coord |}.

(** [{ ...coord, branch: b }] *)
Definition set_branch (b : option string) (coord : AxisCoordinate)
  : AxisCoordinate :=
  {| pillar := pillar coord; sector := sector coord;
     honeycomb := honeycomb coord;
     branch := b; node := node coord;
     regulatory := regulatory coord; compliance := compliance coord;
     compliance_level := compliance_level coord;
     audit_requirements := audit_requirements coord;
     regulatory_framework := regulatory_framework coord;
     role_knowledge := role_knowledge coord; role_sector := role_sector coord;
     role_regulatory := role_regulatory coord;
     role_compliance := role_compliance coord;
     location := location coord; temporal := temporal coord |}.

(** [{ ...coord, temporal: t }] *)
Definition set_temporal (t : option string) (coord : AxisCoordinate)
  : AxisCoordinate :=
  {| pillar := pillar coord; sector := sector coord;
     honeycomb := honeycomb coord;
     branch := branch coord; node := node coord;
     regulatory := regulatory coord; compliance := compliance coord;
     compliance_level := compliance_level coord;
     audit_requirements := audit_requirements coord;
     regulatory_framework := regulatory_framework coord;
     role_knowledge := role_knowledge coord; role_sector := role_sector coord;
     role_regulatory := role_regulatory coord;
     role_compliance := role_compliance coord;
     location := location coord; temporal := t |}.

(** [{ ...coord, [key]: v }] for a value of the axis's type; a value of
    another type is not an assignment the interface admits and leaves the
    coordinate as it is. *)
Definition coord_set (key : AxisKey) (v : AxisValue) (coord : AxisCoordinate)
  : AxisCoordinate :=
  let str (f : option string -> AxisCoordinate) :=
    match v with VString s => f (Some s) | _ => coord end in
  let c := coord in
  match key with
  | K_pillar =>
      match v with
      | VString s =>
          mkAxisCoordinate s (sector c) (honeycomb c) (branch c) (node c)
            (regulatory c) (compliance c) (compliance_level c)
            (audit_requirements c) (regulatory_framework c)
            (role_knowledge c) (role_sector c) (role_regulatory c)
            (role_compliance c) (location c) (temporal c)
      | _ => coord
      end
  | K_sector =>
      match v with
      | VString s => set_sector (SectorStr s) coord
      | VNumber n => set_sector (SectorNum n) coord
      | VArray _ => coord
      end
  | K_honeycomb =>
      match v with
      | VArray l => set_honeycomb (Some l) coord
      | _ => coord
      end
  | K_branch => str (fun x => set_branch x coord)
  | K_node => str (fun x =>
      mkAxisCoordinate (pillar c) (sector c) (honeycomb c) (branch c) x
        (regulatory c) (compliance c) (compliance_level c)
        (audit_requirements c) (regulatory_framework c)
        (role_knowledge c) (role_sector c) (role_regulatory c)
        (role_compliance c) (location c) (temporal c))
  | K_regulatory => str (fun x =>
      mkAxisCoordinate (pillar c) (sector c) (honeycomb c) (branch c) (node c)
        x (compliance c) (compliance_level c)
        (audit_requirements c) (regulatory_framework c)
        (role_knowledge c) (role_sector c) (role_regulatory c)
        (role_compliance c) (location c) (temporal c))
  | K_compliance => str (fun x =>
      mkAxisCoordinate (pillar c) (sector c) (honeycomb c) (branch c) (node c)
        (regulatory c) x (compliance_level c)
        (audit_requirements c) (regulatory_framework c)
        (role_knowledge c) (role_sector c) (role_regulatory c)
        (role_compliance c) (location c) (temporal c))
  | K_compliance_level => str (fun x =>
      mkAxisCoordinate (pillar c) (sector c) (honeycomb c) (branch c) (node c)
        (regulatory c) (compliance c) x
        (audit_requirements c) (regulatory_framework c)
        (role_knowledge c) (role_sector c) (role_regulatory c)
        (role_compliance c) (location c) (temporal c))
  | K_audit_requirements => str (fun x =>
      mkAxisCoordinate (pillar c) (sector c) (honeycomb c) (branch c) (node c)
        (regulatory c) (compliance c) (compliance_level c)
        x (regulatory_framework c)
        (role_knowledge c) (role_sector c) (role_regulatory c)
        (role_compliance c) (location c) (temporal c))
  | K_regulatory_framework => str (fun x =>
      mkAxisCoordinate (pillar c) (sector c) (honeycomb c) (branch c) (node c)
        (regulatory c) (compliance c) (compliance_level c)
        (audit_requirements c) x
        (role_knowledge c) (role_sector c) (role_regulatory c)
        (role_compliance c) (location c) (temporal c))
  | K_role_knowledge => str (fun x =>
      mkAxisCoordinate (pillar c) (sector c) (honeycomb c) (branch c) (node c)
        (regulatory c) (compliance c) (compliance_level c)
        (audit_requirements c) (regulatory_framework c)
        x (role_sector c) (role_regulatory c)
        (role_compliance c) (location c) (temporal c))
  | K_role_sector => str (fun x =>
      mkAxisCoordinate (pillar c) (sector c) (honeycomb c) (branch c) (node c)
        (regulatory c) (compliance c) (compliance_level c)
        (audit_requirements c) (regulatory_framework c)
        (role_knowledge c) x (role_regulatory c)
        (role_compliance c) (location c) (temporal c))
  | K_role_regulatory => str (fun x =>
      mkAxisCoordinate (pillar c) (sector c) (honeycomb c) (branch c) (node c)
        (regulatory c) (compliance c) (compliance_level c)
        (audit_requirements c) (regulatory_framework c)
        (role_knowledge c) (role_sector c) x
        (role_compliance c) (location c) (temporal c))
  | K_role_compliance => str (fun x =>
      mkAxisCoordinate (pillar c) (sector c) (honeycomb c) (branch c) (node c)
        (regulatory c) (compliance c) (compliance_level c)
        (audit_requirements c) (regulatory_framework c)
        (role_knowledge c) (role_sector c) (role_regulatory c)
        x (location c) (temporal c))
  | K_location => str (fun x =>
      mkAxisCoordinate (pillar c) (sector c) (honeycomb c) (branch c) (node c)
        (regulatory c) (compliance c) (compliance_level c)
        (audit_requirements c) (regulatory_framework c)
        (role_knowledge c) (role_sector c) (role_regulatory c)
        (role_compliance c) x (temporal c))
  | K_temporal => str (fun x => set_temporal x coord)
  end.

(** The values the interface admits at an axis. *)
Definition admits (key : AxisKey) (v : AxisValue) : bool :=
  match key, v with
  | K_sector, (VString _ | VNumber _) => true
  | K_sector, VArray _ => false
  | K_honeycomb, VArray _ => true
  | K_honeycomb, _ => false
  | _, VString _ => true
  | _, _ => false
  end.

(** The text of the sector slot. *)
Definition sector_text (s : SectorValue) : string :=
  match s with
  | SectorStr s => s
  | SectorNum n => Number_toString n
  end.

(** A sector that is a string or a safe integer. *)
Definition safe_sector (s : SectorValue) : bool :=
  match s with
  | SectorStr _ => true
  | SectorNum n => isSafeInteger n
  end.


(** The sixteen slots of the encoding, written out. *)
Definition slots_of (coord : AxisCoordinate) : list string :=
  [ pillar coord; sector_text (sector coord);
    match honeycomb coord with Some l => join "," l | None => "" end;
    or_empty (branch coord); or_empty (node coord);
    or_empty (regulatory coord); or_empty (compliance coord);
    or_empty (compliance_level coord); or_empty (audit_requirements coord);
    or_empty (regulatory_framework coord);
    or_empty (role_knowledge coord); or_empty (role_sector coord);
    or_empty (role_regulatory coord); or_empty (role_compliance coord);
    or_empty (location coord); or_empty (temporal coord) ].

(** How many [|] the field texts themselves hold. *)
Definition pipes_within (slots : list string) : nat :=
  list_sum (map (count_char pipe) slots).

(** An optional string axis that is empty or absent. *)
Definition blank (v : option string) : bool :=
  match v with
  | Some s => is_empty s
  | None => true
  end.

(** Every axis other than honeycomb is empty or absent. *)
Definition others_blank (coord : AxisCoordinate) : bool :=
  is_empty (pillar coord) && is_empty (sector_text (sector coord))
  && sector_is_string (sector coord)
  && blank (branch coord) && blank (node coord)
  && blank (regulatory coord) && blank (compliance coord)
  && blank (compliance_level coord) && blank (audit_requirements coord)
  && blank (regulatory_framework coord)
  && blank (role_knowledge coord) && blank (role_sector coord)
  && blank (role_regulatory coord) && blank (role_compliance coord)
  && blank (location coord) && blank (temporal coord).

(** Pillar and sector are non-empty. *)
Definition required_present (coord : AxisCoordinate) : bool :=
  negb (is_empty (pillar coord))
  && match sector coord with
     | SectorStr s => negb (is_empty s)
     | SectorNum _ => true
     end.

(** [{ pillar: "PL01.1.1", sector: "5415" }], the coordinate of the
    specification's examples. *)
Definition example_coordinate : AxisCoordinate :=
  {| pillar := "PL01.1.1"; sector := SectorStr "5415";
     honeycomb := None; branch := None; node := None;
     regulatory := None; compliance := None; compliance_level := None;
     audit_requirements := None; regulatory_framework := None;
     role_knowledge := None; role_sector := None; role_regulatory := None;
     role_compliance := None; location := None; temporal := None |}.

(** The same with the sector as the number 5415. *)
Definition example_numeric_sector : AxisCoordinate :=
  set_sector (SectorNum 5415) example_coordinate.

(** The same with an empty honeycomb array. *)
Definition example_empty_honeycomb : AxisCoordinate :=
  set_honeycomb (Some []) example_coordinate.

(** The same with a branch that is present but empty. *)
Definition example_empty_branch : AxisCoordinate :=
  set_branch (Some "") example_coordinate.

(** [honeycomb = ["A", "B"]] and nothing else. *)
Definition example_honeycomb_only : AxisCoordinate :=
  set_honeycomb (Some ["A"; "B"]) createEmptyCoordinate.

(** A filled coordinate with an array, a UTC timestamp and the fields of
    the system identifier. *)
Definition example_full : AxisCoordinate :=
  {| pillar := "PL12.2.1"; sector := SectorStr "541511";
     honeycomb := Some ["PL12-5415"; "PL08-Healthcare"];
     branch := Some "TECH.AI.ML"; node := Some "N-PL12-5415";
     regulatory := Some "GDPR"; compliance := Some "ISO-27001";
     compliance_level := Some "strict";
     audit_requirements := None; regulatory_framework := None;
     role_knowledge := Some "Data Scientist"; role_sector := None;
     role_regulatory := None; role_compliance := None;
     location := Some "US-CA"; temporal := Some "2024-06-04T12:00:00Z" |}.

(** A truth value as a count. *)
Definition bit (b : bool) : nat := if b then 1 else 0.

(** * The pages and the API client

    The callers of [types.ts]: the coordinate builder and the simulation
    page (their source files are among the unnamed ones), the navigation bar
    and the API client [frontend/src/lib/api.ts].  Event handlers are state
    transformers; an [await]ed request is a value of [result]. *)

Local Open Scope nat_scope.

(** ** [String.prototype.trim] *)

Definition bytes (l : list nat) : string :=
  string_of_list_ascii (map ascii_of_nat l).

(** The WhiteSpace and LineTerminator code points of ECMAScript, each as
    its UTF-8 bytes: U+0009 to U+000D, U+0020, U+00A0, U+1680, U+2000 to
    U+200A, U+2028, U+2029, U+202F, U+205F, U+3000, U+FEFF. *)
Definition white_space : list string :=
  map bytes
    [ [9]; [10]; [11]; [12]; [13]; [32]; [194; 160]; [225; 154; 128];
      [226; 128; 128]; [226; 128; 129]; [226; 128; 130]; [226; 128; 131];
      [226; 128; 132]; [226; 128; 133]; [226; 128; 134]; [226; 128; 135];
      [226; 128; 136]; [226; 128; 137]; [226; 128; 138];
      [226; 128; 168]; [226; 128; 169]; [226; 128; 175];
      [226; 129; 159]; [227; 128; 128]; [239; 187; 191] ]%nat.

(** What follows the prefix [p] in [s], if [s] starts with it. *)
Fixpoint strip_prefix (p s : string) : option string :=
  match p, s with
  | EmptyString, _ => Some s
  | String a p', String b s' =>
      if Ascii.eqb a b then strip_prefix p' s' else None
  | String _ _, EmptyString => None
  end.

(** What follows one leading element of [ws], if there is one. *)
Fixpoint strip_any (ws : list string) (s : string) : option string :=
  match ws with
  | [] => None
  | w :: ws' =>
      match strip_prefix w s with
      | Some rest => Some rest
      | None => strip_any ws' s
      end
  end.

(** Leading elements of [ws] removed, at most [fuel] of them; the length of
    the string is fuel enough. *)
Fixpoint strip_leading (fuel : nat) (ws : list string) (s : string) : string :=
  match fuel with
  | O => s
  | S fuel' =>
      match strip_any ws s with
      | Some rest => strip_leading fuel' ws rest
      | None => s
      end
  end.

(** No element of the list is empty. *)
Definition all_nonempty (ws : list string) : bool :=
  forallb (fun w => negb (is_empty w)) ws.

Fixpoint string_rev (s : string) : string :=
  match s with
  | EmptyString => EmptyString
  | String c rest => (string_rev rest ++ String c EmptyString)%string
  end.

Definition trimStart (s : string) : string :=
  strip_leading (String.length s) white_space s.

Definition trimEnd (s : string) : string :=
  string_rev
    (strip_leading (String.length s) (map string_rev white_space)
       (string_rev s)).

(** [s.trim()] *)
Definition trim (s : string) : string := trimEnd (trimStart s).

(** [list.includes(x)] on strings. *)
Definition includes (l : list string) (x : string) : bool :=
  existsb (String.eqb x) l.

(** ** The coordinate builder ([CoordinatePage]) *)

(** The [coordinate] state at run time: what [coordinate[key]] reads at
    each key.  [updateCoordinate] stores [undefined] at any key, [pillar]
    and [sector] included, so a state need not be an [AxisCoordinate]. *)
Definition CoordinateState : Type := AxisKey -> option AxisValue.

(** Two keys are the same property name. *)
Definition AxisKey_eqb (a b : AxisKey) : bool :=
  String.eqb (axis_name a) (axis_name b).

(** The [value: string | string[]] an input hands to [updateCoordinate]. *)
Inductive FieldInput : Type :=
| TextInput (s : string)
| ListInput (l : list string).

(** [value === '' ? undefined : value] *)
Definition stored_value (value : FieldInput) : option AxisValue :=
  match value with
  | TextInput EmptyString => None
  | TextInput s => Some (VString s)
  | ListInput l => Some (VArray l)
  end.

(** [updateCoordinate(key, value)]:
    [setCoordinate(prev => ({ ...prev, [key]: value === '' ? undefined : value }))] *)
Definition updateCoordinate (key : AxisKey) (value : FieldInput)
  (prev : CoordinateState) : CoordinateState :=
  fun k => if AxisKey_eqb k key then stored_value value else prev k.

(** [useState<AxisCoordinate>(createEmptyCoordinate())] *)
Definition initial_coordinate_state : CoordinateState :=
  coord_get createEmptyCoordinate.

(** [coordinateToNuremberg(coordinate)] on the state: the function reads
    [coord[key]] at each key of [AXIS_KEYS] and nothing else. *)
Definition nurembergString (coordinate : CoordinateState) : string :=
  join "|" (map (fun key => nuremberg_slot (coordinate key)) AXIS_KEYS).

(** The [value] of a text input: [coordinate[key]?.toString() || ''] *)
Definition field_value (coordinate : CoordinateState) (key : AxisKey) : string :=
  match opt_toString (coordinate key) with
  | Some s => or_else s ""
  | None => ""
  end.

(** The [value] of the honeycomb input:
    [Array.isArray(coordinate[key]) ? coordinate[key]?.join(', ') : ''] *)
Definition honeycomb_value (coordinate : CoordinateState) : string :=
  match coordinate K_honeycomb with
  | Some (VArray l) => join ", " l
  | _ => ""
  end.

(** What the honeycomb input hands over on a change:
    [e.target.value ? e.target.value.split(',').map(s => s.trim()) : []] *)
Definition honeycomb_entries (text : string) : list string :=
  if is_empty text then [] else map trim (split_on comma text).

(** The [onChange] of the honeycomb input and of the other inputs. *)
Definition change_honeycomb (text : string) (coordinate : CoordinateState)
  : CoordinateState :=
  updateCoordinate K_honeycomb (ListInput (honeycomb_entries text)) coordinate.

Definition change_field (key : AxisKey) (text : string)
  (coordinate : CoordinateState) : CoordinateState :=
  updateCoordinate key (TextInput text) coordinate.

(** The text an input puts into its slot of the Nuremberg string. *)
Definition input_text (value : FieldInput) : string :=
  match value with
  | TextInput s => s
  | ListInput l => join "," l
  end.

(** ** The persona list of the simulation page ([SimulationPage]) *)

Record RoleState : Type := mkRoleState {
  targetRoles : list string;
  roleInput : string
}.

(** [useState<string[]>(['Data Scientist', 'Healthcare Expert'])] and
    [useState('')] *)
Definition initial_roles : RoleState :=
  {| targetRoles := ["Data Scientist"; "Healthcare Expert"]; roleInput := "" |}.

Definition predefinedRoles : list string :=
  [ "Data Scientist"; "Software Engineer"; "Healthcare Expert";
    "Compliance Officer"; "Regulatory Analyst"; "Financial Advisor";
    "Security Specialist"; "Product Manager"; "Research Scientist";
    "Business Analyst"; "AI/ML Engineer"; "DevOps Engineer" ].

(** [onChange={(e) => setRoleInput(e.target.value)}] *)
Definition setRoleInput (text : string) (st : RoleState) : RoleState :=
  {| targetRoles := targetRoles st; roleInput := text |}.

(** [addRole]: [if (roleInput.trim() && !targetRoles.includes(roleInput.trim()))]
    then [setTargetRoles(prev => [...prev, roleInput.trim()])] and
    [setRoleInput('')]. *)
Definition addRole (st : RoleState) : RoleState :=
  if negb (is_empty (trim (roleInput st)))
     && negb (includes (targetRoles st) (trim (roleInput st)))
  then {| targetRoles := targetRoles st ++ [trim (roleInput st)];
          roleInput := "" |}
  else st.

(** [removeRole(role)]: [setTargetRoles(prev => prev.filter(r => r !== role))] *)
Definition removeRole (role : string) (st : RoleState) : RoleState :=
  {| targetRoles := filter (fun r => negb (String.eqb r role)) (targetRoles st);
     roleInput := roleInput st |}.

(** The quick-add buttons: one for each role of
    [predefinedRoles.filter(role => !targetRoles.includes(role))]. *)
Definition quick_add_offered (st : RoleState) : list string :=
  filter (fun role => negb (includes (targetRoles st) role)) predefinedRoles.

(** The [onClick] of a quick-add button:
    [setTargetRoles(prev => [...prev, role])]. *)
Definition quickAdd (role : string) (st : RoleState) : RoleState :=
  {| targetRoles := targetRoles st ++ [role]; roleInput := roleInput st |}.

(** One event of the persona card.  A quick-add button exists only for an
    offered role; a remove button only for a listed one. *)
Inductive role_step : RoleState -> RoleState -> Prop :=
| step_type (text : string) (st : RoleState) :
    role_step st (setRoleInput text st)
| step_add (st : RoleState) :
    role_step st (addRole st)
| step_remove (role : string) (st : RoleState) :
    In role (targetRoles st) -> role_step st (removeRole role st)
| step_quick_add (role : string) (st : RoleState) :
    In role (quick_add_offered st) -> role_step st (quickAdd role st).

(** The states the page can be in. *)
Inductive role_reachable : RoleState -> Prop :=
| reach_initial : role_reachable initial_roles
| reach_step (st st' : RoleState) :
    role_reachable st -> role_step st st' -> role_reachable st'.

(** A role worth listing: not empty, and without outer white space. *)
Definition proper_role (r : string) : Prop := r <> "" /\ trim r = r.

(** ** The theme switch of the navigation bar ([Navigation]) *)

(** The component's [isDark], the [theme] item of [localStorage]
    ([null] when absent) and whether the document element carries the
    class [dark]. *)
Record ThemeState : Type := mkThemeState {
  isDark : bool;
  savedTheme : option string;
  dark_class : bool
}.

(** [!savedTheme] on a [string | null]: true for [null] and for the empty
    string. *)
Definition not_set (v : option string) : bool :=
  match v with
  | Some s => is_empty s
  | None => true
  end.

(** [savedTheme === "dark" || (!savedTheme && systemTheme)] *)
Definition shouldBeDark (saved : option string) (systemTheme : bool) : bool :=
  match saved with
  | Some s => String.eqb s "dark"
  | None => false
  end
  || (not_set saved && systemTheme).

(** The effect run on mount: [setIsDark(shouldBeDark)] and
    [classList.toggle("dark", shouldBeDark)]; the storage is only read. *)
Definition mount_theme (saved : option string) (systemTheme : bool)
  : ThemeState :=
  {| isDark := shouldBeDark saved systemTheme;
     savedTheme := saved;
     dark_class := shouldBeDark saved systemTheme |}.

(** [toggleTheme]: [newIsDark = !isDark], [setIsDark(newIsDark)],
    [localStorage.setItem("theme", newIsDark ? "dark" : "light")],
    [classList.toggle("dark", newIsDark)]. *)
Definition toggleTheme (st : ThemeState) : ThemeState :=
  let newIsDark := negb (isDark st) in
  {| isDark := newIsDark;
     savedTheme := Some (if newIsDark then "dark" else "light");
     dark_class := newIsDark |}.

(** ** The API client ([api.ts]) *)

(** A plain object as the list of its property writes, in order; a later
    write of a name overrides an earlier one, which is what a spread after
    a property does. *)
Definition JsObject (V : Type) : Type := list (string * V).

(** [obj[name]]: the last write of the name, [None] for [undefined]. *)
Fixpoint obj_get {V : Type} (name : string) (obj : JsObject V) : option V :=
  match obj with
  | [] => None
  | (k, v) :: rest =>
      match obj_get name rest with
      | Some later => Some later
      | None => if String.eqb name k then Some v else None
      end
  end.

(** [{ ...a, ...b }] *)
Definition obj_spread {V : Type} (a b : JsObject V) : JsObject V := a ++ b.

(** The values of a [RequestInit]: the method and the body are strings,
    the headers a plain object of strings. *)
Inductive InitValue : Type :=
| InitText (s : string)
| InitHeaders (h : JsObject string).

Definition RequestInit : Type := JsObject InitValue.

(** [...options.headers]: the properties of the headers object, none when
    [options.headers] is [undefined]. *)
Definition headers_of (options : RequestInit) : JsObject string :=
  match obj_get "headers" options with
  | Some (InitHeaders h) => h
  | _ => []
  end.

(** The second argument of [fetch] in [apiRequest]:
    [{ headers: { 'Content-Type': 'application/json', ...options.headers },
       ...options }] *)
Definition fetch_init (options : RequestInit) : RequestInit :=
  obj_spread
    [("headers",
      InitHeaders
        (obj_spread [("Content-Type", "application/json")]
           (headers_of options)))]
    options.

(** The headers object [fetch] is given. *)
Definition headers_sent (options : RequestInit) : JsObject string :=
  headers_of (fetch_init options).

(** An [Error] object: its name, its message and, for an [ApiError], the
    status. *)
Record JsError : Type := mkJsError {
  err_name : string;
  err_message : string;
  err_status : option N
}.

(** What a [throw] or a rejected promise carries: an [Error] or some other
    value. *)
Inductive Thrown : Type :=
| ThrowError (e : JsError)
| ThrowValue.

(** A response as [apiRequest] reads it; [json] is what [response.json()]
    resolves to, or the error it rejects with. *)
Record Response (T : Type) : Type := mkResponse {
  ok : bool;
  status : N;
  statusText : string;
  text : string;
  json : result Thrown T
}.
Arguments ok {T} r.
Arguments status {T} r.
Arguments statusText {T} r.
Arguments text {T} r.
Arguments json {T} r.

(** The line feed of a template literal. *)
Definition line_feed : string := String (ascii_of_nat 10) EmptyString.

(** [new ApiError(...)] of [apiRequest]: the message is
    [`API request failed: ${response.status} ${response.statusText}\n${errorText}`]. *)
Definition ApiError {T : Type} (response : Response T) : JsError :=
  {| err_name := "ApiError";
     err_message :=
       ("API request failed: " ++ Number_toString (Z.of_N (status response))
        ++ " " ++ statusText response ++ line_feed ++ text response)%string;
     err_status := Some (status response) |}.

Section ApiClient.

(** [process.env.NEXT_PUBLIC_API_URL] *)
Variable NEXT_PUBLIC_API_URL : option string.

(** [process.env.NEXT_PUBLIC_API_URL || 'http://localhost:8001'] *)
Definition API_BASE_URL : string :=
  match NEXT_PUBLIC_API_URL with
  | Some url => or_else url "http://localhost:8001"
  | None => "http://localhost:8001"
  end.

Variable T : Type.

(** The network: what [await fetch(url, init)] gives, a response or the
    error thrown. *)
Variable fetch : string -> RequestInit -> result Thrown (Response T).

(** [apiRequest<T>(endpoint, options)] *)
Definition apiRequest (endpoint : string) (options : RequestInit)
  : result Thrown T :=
  let url := (API_BASE_URL ++ endpoint)%string in
  match fetch url (fetch_init options) with
  | Raise e => Raise e
  | Ok response =>
      if negb (ok response) then Raise (ThrowError (ApiError response))
      else json response
  end.

End ApiClient.

(** The characters [encodeURIComponent] leaves as they are: letters,
    digits and [- _ . ! ~ * ' ( )]. *)
Definition is_alnum (c : ascii) : bool :=
  let n := nat_of_ascii c in
  ((48 <=? n) && (n <=? 57) || (65 <=? n) && (n <=? 90)
   || (97 <=? n) && (n <=? 122))%nat.

Definition uri_unreserved (c : ascii) : bool :=
  is_alnum c || existsb (Ascii.eqb c) (list_ascii_of_string "-_.!~*'()").

Definition hex_upper (n : nat) : ascii :=
  match get n "0123456789ABCDEF" with
  | Some c => c
  | None => "0"%char
  end.

(** A byte as [%XX]. *)
Definition percent_byte (c : ascii) : string :=
  let n := nat_of_ascii c in
  String "%" (String (hex_upper (n / 16)) (String (hex_upper (n mod 16)) "")).

(** [encodeURIComponent(s)] on the UTF-8 form of a well-formed text:
    every octet that is not unreserved becomes [%XX].  A text with an
    unpaired surrogate has no UTF-8 form; [Encode] below starts from the
    code units. *)
Fixpoint encodeURIComponent (s : string) : string :=
  match s with
  | EmptyString => EmptyString
  | String c rest =>
      ((if uri_unreserved c then String c EmptyString else percent_byte c)
       ++ encodeURIComponent rest)%string
  end.

(** The value of a hexadecimal digit. *)
Definition hex_value (c : ascii) : option nat :=
  let n := nat_of_ascii c in
  if ((48 <=? n) && (n <=? 57))%nat then Some (n - 48)
  else if ((65 <=? n) && (n <=? 70))%nat then Some (n - 55)
  else if ((97 <=? n) && (n <=? 102))%nat then Some (n - 87)
  else None.

(** Percent-decoding, as the receiving end reads a component; [plus] says
    whether [+] stands for a space (it does in a form-encoded query). *)
Fixpoint percent_decode (plus : bool) (s : string) : string :=
  match s with
  | String "%" (String h (String l rest as tail2) as tail1) =>
      match hex_value h, hex_value l with
      | Some a, Some b =>
          String (ascii_of_nat (16 * a + b)) (percent_decode plus rest)
      | _, _ => String "%" (percent_decode plus tail1)
      end
  | String c rest =>
      String (if plus && Ascii.eqb c "+" then " "%char else c)
        (percent_decode plus rest)
  | EmptyString => EmptyString
  end.

(** The bytes the [application/x-www-form-urlencoded] serializer of
    [URLSearchParams] leaves as they are: letters, digits and [* - . _]. *)
Definition form_unreserved (c : ascii) : bool :=
  is_alnum c || existsb (Ascii.eqb c) (list_ascii_of_string "*-._").

(** One name or value of [URLSearchParams.prototype.toString], on its
    UTF-8 form: a space becomes [+], any other octet outside the set
    becomes [%XX].  [serialize_value] below starts from the code units. *)
Fixpoint form_encode (s : string) : string :=
  match s with
  | EmptyString => EmptyString
  | String c rest =>
      ((if form_unreserved c then String c EmptyString
        else if Ascii.eqb c " " then "+"
        else percent_byte c)
       ++ form_encode rest)%string
  end.

(** *** JavaScript strings *)

(** A JavaScript string is a sequence of 16-bit code units. *)
Definition JsString : Type := list N.

Definition code_unit (u : N) : bool := (u <? 65536)%N.

(** A leading and a trailing surrogate. *)
Definition is_lead (u : N) : bool := ((55296 <=? u) && (u <=? 56319))%N.
Definition is_trail (u : N) : bool := ((56320 <=? u) && (u <=? 57343))%N.

(** [CodePointAt] along the string: a leading surrogate with the trailing
    one after it is one code point, any other surrogate is unpaired
    ([None]), any other code unit is its own code point. *)
Fixpoint code_points (s : JsString) : list (option N) :=
  match s with
  | [] => []
  | u :: rest =>
      if is_lead u then
        match rest with
        | t :: rest' =>
            if is_trail t
            then Some (65536 + (u - 55296) * 1024 + (t - 56320))%N
                 :: code_points rest'
            else None :: code_points rest
        | [] => [None]
        end
      else if is_trail u then None :: code_points rest
      else Some u :: code_points rest
  end.

Definition is_some {A : Type} (o : option A) : bool :=
  match o with Some _ => true | None => false end.

(** [String.prototype.isWellFormed]: no unpaired surrogate. *)
Definition isWellFormed (s : JsString) : bool :=
  forallb is_some (code_points s).

(** The conversion to a [USVString]: an unpaired surrogate becomes
    U+FFFD. *)
Definition toUSVString (s : JsString) : list N :=
  map (fun o => match o with Some c => c | None => 65533%N end)
      (code_points s).

(** The UTF-8 octets of a code point. *)
Definition utf8_encode (cp : N) : string :=
  (let b := ascii_of_N in
   if cp <? 128 then String (b cp) ""
   else if cp <? 2048 then
     String (b (192 + cp / 64)) (String (b (128 + cp mod 64)) "")
   else if cp <? 65536 then
     String (b (224 + cp / 4096))
       (String (b (128 + cp / 64 mod 64)) (String (b (128 + cp mod 64)) ""))
   else
     String (b (240 + cp / 262144))
       (String (b (128 + cp / 4096 mod 64))
          (String (b (128 + cp / 64 mod 64))
             (String (b (128 + cp mod 64)) ""))))%N.

Fixpoint utf8_string (cps : list N) : string :=
  match cps with
  | [] => EmptyString
  | cp :: rest => (utf8_encode cp ++ utf8_string rest)%string
  end.

(** [encodeURIComponent(s)] on a JavaScript string: [URIError] ([None])
    at an unpaired surrogate, otherwise every octet of the UTF-8 form that
    is not unreserved as [%XX]. *)
Definition Encode (s : JsString) : option string :=
  if isWellFormed s
  then Some (encodeURIComponent (utf8_string (toUSVString s)))
  else None.

(** A value handed to [URLSearchParams.prototype.append] as [toString]
    writes it: the conversion to a [USVString], then [form_encode] of the
    UTF-8 form. *)
Definition serialize_value (s : JsString) : string :=
  form_encode (utf8_string (toUSVString s)).

(** Reading a sequence of UTF-8 octets back, by the length the first octet
    of each code point announces. *)
Fixpoint utf8_decode (s : string) : list N :=
  match s with
  | EmptyString => []
  | String b0 r0 =>
      let n0 := N_of_ascii b0 in
      if (n0 <? 128)%N then n0 :: utf8_decode r0 else
      match r0 with
      | String b1 r1 =>
          let n1 := N_of_ascii b1 in
          if (n0 <? 224)%N then ((n0 - 192) * 64 + (n1 - 128))%N :: utf8_decode r1 else
          match r1 with
          | String b2 r2 =>
              let n2 := N_of_ascii b2 in
              if (n0 <? 240)%N
              then ((n0 - 224) * 4096 + (n1 - 128) * 64 + (n2 - 128))%N
                   :: utf8_decode r2
              else
                match r2 with
                | String b3 r3 =>
                    let n3 := N_of_ascii b3 in
                    ((n0 - 240) * 262144 + (n1 - 128) * 4096
                     + (n2 - 128) * 64 + (n3 - 128))%N :: utf8_decode r3
                | EmptyString => []
                end
          | EmptyString => []
          end
      | EmptyString => []
      end
  end.

(** The code units of a code point: itself, or its surrogate pair. *)
Definition code_units_of (cp : N) : list N :=
  (if cp <? 65536 then [cp]
   else [55296 + (cp - 65536) / 1024; 56320 + (cp - 65536) mod 1024])%N.

(** [params.toString()] after the [append]s: [name=value] pairs joined
    with [&]. *)
Definition URLSearchParams_toString (params : list (string * string)) : string :=
  join "&"
    (map (fun p => (form_encode (fst p) ++ "=" ++ form_encode (snd p))%string)
       params).

(** A request as a function of [api.ts] makes it: the endpoint and the
    options it hands to [apiRequest]. *)
Definition Call : Type := (string * RequestInit)%type.

(** A string that is not falsy. *)
Definition given (v : option string) : option string :=
  match v with
  | Some EmptyString | None => None
  | Some s => Some s
  end.

(** [generateSampleCoordinate(role?)] *)
Definition generateSampleCoordinate (role : option string) : Call :=
  let params :=
    match given role with
    | Some r => ("?role=" ++ encodeURIComponent r)%string
    | None => ""
    end in
  (("/dev/generate-sample" ++ params)%string, [("method", InitText "POST")]).

(** A default parameter: [undefined] takes the default. *)
Definition default_to (d : string) (v : option string) : string :=
  match v with
  | Some s => s
  | None => d
  end.

(** [aiExtractKnowledge(content, contentType = 'text')] *)
Definition aiExtractKnowledge (content : string) (contentType : option string)
  : Call :=
  let params :=
    [("content", content); ("content_type", default_to "text" contentType)] in
  (("/api/ai/extract-knowledge?" ++ URLSearchParams_toString params)%string,
   [("method", InitText "POST")]).

(** [aiGenerateReasoningChain(query, strategy = 'hybrid')] *)
Definition aiGenerateReasoningChain (query : string) (strategy : option string)
  : Call :=
  let params :=
    [("query", query); ("strategy", default_to "hybrid" strategy)] in
  (("/api/ai/reasoning-chain?" ++ URLSearchParams_toString params)%string,
   [("method", InitText "POST")]).

(** [enum AccessLevel] *)
Inductive AccessLevel : Type :=
| PUBLIC | INTERNAL | CONFIDENTIAL | RESTRICTED | TOP_SECRET.

Definition AccessLevel_value (a : AccessLevel) : string :=
  match a with
  | PUBLIC => "PUBLIC" | INTERNAL => "INTERNAL"
  | CONFIDENTIAL => "CONFIDENTIAL" | RESTRICTED => "RESTRICTED"
  | TOP_SECRET => "TOP_SECRET"
  end.

(** [retrieveSecureData(recordId, requiredAccessLevel = AccessLevel.PUBLIC)] *)
Definition retrieveSecureData (recordId : string)
  (requiredAccessLevel : option AccessLevel) : Call :=
  let level :=
    match requiredAccessLevel with Some a => a | None => PUBLIC end in
  (("/api/secure/retrieve/" ++ recordId)%string,
   [("method", InitText "GET");
    ("headers",
     InitHeaders [("X-Required-Access-Level", AccessLevel_value level)])]).

(** [validateCoordinate(coordinate)]; [body] is
    [JSON.stringify(coordinate)]. *)
Definition validateCoordinate (body : string) : Call :=
  ("/axis/validate", [("method", InitText "POST"); ("body", InitText body)]).

(** The validation panel of the coordinate builder. *)
Record PanelState : Type := mkPanelState {
  validationResult : option ValidationReport;
  loading : bool
}.

Section HandleValidate.

Variable NEXT_PUBLIC_API_URL : option string.
Variable fetch :
  string -> RequestInit -> result Thrown (Response ValidationReport).

(** [JSON.stringify] of the coordinate state. *)
Variable stringify : CoordinateState -> string.

(** [handleValidate]: [setLoading(true)];
    [try { setValidationResult(await validateCoordinate(coordinate)) }]
    [catch (error) { setValidationResult({ valid: false, errors:
    [error instanceof Error ? error.message : 'Validation failed'] }) }]
    [finally { setLoading(false) }]. *)
Definition handleValidate (coordinate : CoordinateState) (st : PanelState)
  : PanelState :=
  let (endpoint, options) := validateCoordinate (stringify coordinate) in
  match apiRequest NEXT_PUBLIC_API_URL ValidationReport fetch endpoint options
  with
  | Ok report => {| validationResult := Some report; loading := false |}
  | Raise error =>
      {| validationResult :=
           Some {| valid := false;
                   errors :=
                     Some [match error with
                           | ThrowError e => err_message e
                           | ThrowValue => "Validation failed"
                           end] |};
         loading := false |}
  end.

End HandleValidate.

(** Every character of the string passes the test. *)
Fixpoint all_chars (p : ascii -> bool) (s : string) : bool :=
  match s with
  | EmptyString => true
  | String c rest => p c && all_chars p rest
  end.

(** The slots of the encoding that are not empty. *)
Definition nonempty_slots (coord : AxisCoordinate) : nat :=
  List.length
    (filter (fun slot => negb (is_empty slot))
       (map nuremberg_slot (coordinateToArray coord))).

(** The three axes [unified_system_id] reads. *)
Definition identifier_axis (key : AxisKey) : bool :=
  match key with
  | K_pillar | K_sector | K_location => true
  | _ => false
  end.

(** One at the array of one empty entry, the filled value that leaves its
    slot empty. *)
Definition empty_entry (h : option (list string)) : nat :=
  match h with
  | Some [EmptyString] => 1
  | _ => 0
  end.

(** A response of the validation endpoint to a body it cannot process. *)
Definition unprocessable : Response ValidationReport :=
  {| ok := false; status := 422; statusText := "Unprocessable Entity";
     text := "Temporal must be valid ISO 8601 format";
     json := Raise ThrowValue |}.

(** * Properties *)

Local Open Scope nat_scope.

(** ** Strings: joining and splitting *)

Lemma or_else_empty (s : string) : or_else s "" = s.
Proof. destruct s; reflexivity. Qed.

Lemma count_char_app (c : ascii) (s t : string) :
  count_char c (s ++ t)%string = count_char c s + count_char c t.
Proof.
  induction s as [|a s IH]; simpl; [reflexivity|].
  rewrite IH. lia.
Qed.

Lemma contains_char_app (c : ascii) (s t : string) :
  contains_char c (s ++ t)%string = contains_char c s || contains_char c t.
Proof.
  induction s as [|a s IH]; simpl; [reflexivity|].
  rewrite IH. now rewrite orb_assoc.
Qed.

Lemma count_char_absent (c : ascii) (s : string) :
  contains_char c s = false -> count_char c s = 0.
Proof.
  induction s as [|a s IH]; simpl; [reflexivity|].
  intros H. apply orb_false_iff in H as [Ha Hs].
  rewrite Ha, (IH Hs). reflexivity.
Qed.

(** Joining [n + 1] pieces with a one-character separator puts [n]
    separators between them, next to those the pieces hold. *)
Lemma count_char_join (c : ascii) (x : string) (l : list string) :
  count_char c (join (String c "") (x :: l))
  = List.length l + list_sum (map (count_char c) (x :: l)).
Proof.
  revert x. induction l as [|y l IH]; intros x.
  - simpl. lia.
  - change (join (String c "") (x :: y :: l))
      with (x ++ String c "" ++ join (String c "") (y :: l))%string.
    rewrite !count_char_app, IH.
    cbn [count_char map List.length]. rewrite Ascii.eqb_refl.
    unfold list_sum. cbn [fold_right]. lia.
Qed.

Lemma split_on_nonempty (sep : ascii) (s : string) : split_on sep s <> [].
Proof.
  induction s as [|a s IH]; simpl; [discriminate|].
  destruct (Ascii.eqb a sep); [discriminate|].
  destruct (split_on sep s); discriminate.
Qed.

(** A string without the separator is its own single piece. *)
Lemma split_on_absent (sep : ascii) (s : string) :
  contains_char sep s = false -> split_on sep s = [s].
Proof.
  induction s as [|a s IH]; simpl; [reflexivity|].
  intros H. apply orb_false_iff in H as [Ha Hs].
  rewrite Ha, (IH Hs). reflexivity.
Qed.

(** A piece without the separator, the separator, and more text. *)
Lemma split_on_app (sep : ascii) (s rest : string) :
  contains_char sep s = false ->
  split_on sep (s ++ String sep rest)%string = s :: split_on sep rest.
Proof.
  induction s as [|a s IH]; simpl.
  - intros _. now rewrite Ascii.eqb_refl.
  - intros H. apply orb_false_iff in H as [Ha Hs].
    rewrite Ha, (IH Hs). reflexivity.
Qed.

(** Splitting undoes joining when no piece holds the separator. *)
Lemma split_on_join (sep : ascii) (x : string) (l : list string) :
  forallb (fun s => negb (contains_char sep s)) (x :: l) = true ->
  split_on sep (join (String sep "") (x :: l)) = x :: l.
Proof.
  revert x. induction l as [|y l IH]; intros x H.
  - simpl in H. rewrite andb_true_r in H. apply negb_true_iff in H.
    simpl. now apply split_on_absent.
  - change (join (String sep "") (x :: y :: l))
      with (x ++ String sep (join (String sep "") (y :: l)))%string.
    simpl in H. apply andb_true_iff in H as [Hx Hl].
    apply negb_true_iff in Hx.
    rewrite (split_on_app _ _ _ Hx). f_equal. apply IH. exact Hl.
Qed.

Lemma contains_char_join (c sep : ascii) (l : list string) :
  Ascii.eqb sep c = false ->
  forallb (fun s => negb (contains_char c s)) l = true ->
  contains_char c (join (String sep "") l) = false.
Proof.
  intros Hsep. induction l as [|x l IH]; [reflexivity|].
  intros H. simpl in H. apply andb_true_iff in H as [Hx Hl].
  apply negb_true_iff in Hx. destruct l as [|y l].
  - exact Hx.
  - change (join (String sep "") (x :: y :: l))
      with (x ++ String sep (join (String sep "") (y :: l)))%string.
    rewrite contains_char_app. cbn [contains_char].
    rewrite Hx, Hsep, (IH Hl). reflexivity.
Qed.

(** ** The encoding, slot by slot *)

Example Number_toString_examples :
  Number_toString 5415 = "5415" /\ Number_toString 0 = "0"
  /\ Number_toString (-12) = "-12".
Proof. repeat split. Qed.

(** Beyond the safe integers: the last safe integer, the two integers that
    share the Number [2 ^ 53], the fewest digits followed by zeros, the
    exponent form from [10 ^ 21] on, and [Infinity]. *)
Example Number_toString_large :
  Number_toString (2 ^ 53 - 1) = "9007199254740991"
  /\ Number_toString (2 ^ 53) = "9007199254740992"
  /\ Number_toString (2 ^ 53 + 1) = "9007199254740992"
  /\ Number_toString (2 ^ 60) = "1152921504606847000"
  /\ Number_toString (10 ^ 21 - 1) = "1e+21"
  /\ Number_toString (10 ^ 21) = "1e+21"
  /\ Number_toString (- 10 ^ 21) = "-1e+21"
  /\ Number_toString 123456789012345678901234567890
     = "1.2345678901234568e+29"
  /\ Number_toString (2 ^ 1024 - 2 ^ 970 - 1) = "1.7976931348623157e+308"
  /\ Number_toString (2 ^ 1024) = "Infinity".
Proof. vm_compute. repeat split. Qed.

(** A safe integer prints as its decimal numeral. *)
Lemma Number_toString_safe (n : Z) :
  isSafeInteger n = true -> Number_toString n = decimal_numeral n.
Proof. unfold Number_toString. now intros ->. Qed.

Lemma nuremberg_slot_string (o : option string) :
  nuremberg_slot (option_map VString o) = or_empty o.
Proof. destruct o as [s|]; simpl; [apply or_else_empty|reflexivity]. Qed.

Lemma nuremberg_slot_sector (s : SectorValue) :
  nuremberg_slot (Some (sector_value s)) = sector_text s.
Proof. destruct s; simpl; apply or_else_empty. Qed.

Lemma nuremberg_slot_array (h : option (list string)) :
  nuremberg_slot (option_map VArray h)
  = match h with Some l => join "," l | None => "" end.
Proof. destruct h; reflexivity. Qed.

Lemma coordinateToNuremberg_slots (coord : AxisCoordinate) :
  coordinateToNuremberg coord = join "|" (slots_of coord).
Proof.
  unfold coordinateToNuremberg, slots_of. f_equal.
  cbn [map AXIS_KEYS coord_get].
  rewrite !nuremberg_slot_string, nuremberg_slot_sector,
    nuremberg_slot_array.
  change (nuremberg_slot (Some (VString (pillar coord))))
    with (or_else (pillar coord) "").
  now rewrite or_else_empty.
Qed.

(** The frontend's slot and the backend's text of a value are the same
    string, a number apart: there the one is [Number.prototype.toString]
    and the other [str]. *)
Lemma nuremberg_slot_text (v : option AxisValue) :
  match v with
  | Some (VNumber n) => isSafeInteger n = true
  | _ => True
  end ->
  nuremberg_slot v = axis_text v.
Proof.
  destruct v as [[s|n|l]|]; simpl; try reflexivity.
  - intros _. apply or_else_empty.
  - intros H. rewrite or_else_empty. now apply Number_toString_safe.
Qed.

Lemma is_empty_true (s : string) : is_empty s = true -> s = "".
Proof. destruct s; [reflexivity|discriminate]. Qed.

Lemma blank_or_empty (v : option string) : blank v = true -> or_empty v = "".
Proof. destruct v as [s|]; simpl; [apply is_empty_true|reflexivity]. Qed.

(** Without a [|] inside a field, the encoding holds exactly fifteen. *)
Lemma pipes_within_delimiter_free (coord : AxisCoordinate) :
  delimiter_free coord = true -> pipes_within (slots_of coord) = 0.
Proof.
  unfold delimiter_free, pipes_within, slots_of.
  cbn [forallb AXIS_KEYS coord_get map].
  assert (Hs : forall s, delimiter_free_string s = true ->
                         count_char pipe s = 0).
  { intros s H. apply andb_true_iff in H as [H _].
    apply negb_true_iff in H. now apply count_char_absent. }
  assert (Ho : forall o, delimiter_free_value (option_map VString o) = true ->
                         count_char pipe (or_empty o) = 0).
  { intros [s|]; simpl; [apply Hs|reflexivity]. }
  intros H. repeat (apply andb_true_iff in H as [? H]). clear H.
  repeat match goal with
         | X : delimiter_free_value (option_map VString _) = true |- _ =>
             apply Ho in X; rewrite X
         end.
  assert (Hp : count_char pipe (pillar coord) = 0) by (apply Hs; assumption).
  assert (Hsec : count_char pipe (sector_text (sector coord)) = 0).
  { destruct (sector coord); simpl in *; now apply Hs. }
  assert (Hh : count_char pipe
                 match honeycomb coord with
                 | Some l => join "," l
                 | None => ""
                 end = 0).
  { destruct (honeycomb coord) as [l|]; [|reflexivity].
    apply count_char_absent. apply contains_char_join; [reflexivity|].
    match goal with X : delimiter_free_value (option_map VArray _) = true |- _ =>
      simpl in X; revert X end.
    clear. induction l as [|x l IH]; simpl; [reflexivity|].
    intros H. apply andb_true_iff in H as [Hx Hl].
    apply andb_true_iff in Hx as [Hx _]. rewrite Hx. now apply IH. }
  rewrite Hp, Hsec, Hh. reflexivity.
Qed.

(** ** [coordinateToNuremberg] and [coordinateToArray] *)

(** C2: for every coordinate, [coordinateToNuremberg] is the sixteen axis
    texts in canonical order joined with [|]: the join puts exactly fifteen
    [|] between the slots (every further [|] of the string lies inside a
    field value), the honeycomb array is its elements joined with [,], and
    an absent axis is the empty string. *)
Theorem C2_encode_joins_sixteen_slots (coord : AxisCoordinate) :
  coordinateToNuremberg coord
  = join "|"
      [ pillar coord; sector_text (sector coord);
        match honeycomb coord with Some l => join "," l | None => "" end;
        match branch coord with Some s => s | None => "" end;
        match node coord with Some s => s | None => "" end;
        match regulatory coord with Some s => s | None => "" end;
        match compliance coord with Some s => s | None => "" end;
        match compliance_level coord with Some s => s | None => "" end;
        match audit_requirements coord with Some s => s | None => "" end;
        match regulatory_framework coord with Some s => s | None => "" end;
        match role_knowledge coord with Some s => s | None => "" end;
        match role_sector coord with Some s => s | None => "" end;
        match role_regulatory coord with Some s => s | None => "" end;
        match role_compliance coord with Some s => s | None => "" end;
        match location coord with Some s => s | None => "" end;
        match temporal coord with Some s => s | None => "" end ]
  /\ coordinateToNuremberg coord
     = join "|" (map nuremberg_slot (coordinateToArray coord))
  /\ List.length (map nuremberg_slot (coordinateToArray coord)) = 16
  /\ count_char pipe (coordinateToNuremberg coord)
     = 15 + pipes_within (slots_of coord).
Proof.
  split; [apply coordinateToNuremberg_slots|].
  split.
  { unfold coordinateToNuremberg, coordinateToArray. now rewrite map_map. }
  split; [reflexivity|].
  rewrite coordinateToNuremberg_slots.
  unfold slots_of at 1. rewrite (count_char_join pipe). reflexivity.
Qed.

(** C3: the coordinate whose honeycomb is ["A","B"] and whose other fifteen
    axes are empty or absent encodes as two empty slots, the slot [A,B],
    and thirteen empty slots. *)
Theorem C3_honeycomb_only (coord : AxisCoordinate)
  (Hhoneycomb : honeycomb coord = Some ["A"; "B"])
  (Hothers : others_blank coord = true) :
  coordinateToNuremberg coord = "||A,B|||||||||||||"
  /\ split_on pipe (coordinateToNuremberg coord)
     = [""; ""; "A,B"; ""; ""; ""; ""; ""; ""; ""; ""; ""; ""; ""; ""; ""].
Proof.
  assert (E : coordinateToNuremberg coord = "||A,B|||||||||||||").
  { rewrite coordinateToNuremberg_slots. unfold slots_of, others_blank in *.
    repeat (apply andb_true_iff in Hothers as [Hothers ?]).
    repeat match goal with
           | X : blank _ = true |- _ => apply blank_or_empty in X; rewrite X
           | X : is_empty _ = true |- _ => apply is_empty_true in X; rewrite X
           end.
    rewrite Hhoneycomb. reflexivity. }
  rewrite E. split; reflexivity.
Qed.

Lemma C3_honeycomb_only_witness :
  coordinateToNuremberg example_honeycomb_only = "||A,B|||||||||||||"
  /\ split_on pipe (coordinateToNuremberg example_honeycomb_only)
     = [""; ""; "A,B"; ""; ""; ""; ""; ""; ""; ""; ""; ""; ""; ""; ""; ""].
Proof.
  apply (C3_honeycomb_only example_honeycomb_only); reflexivity.
Defined.

(** C4: [coordinateToArray] returns exactly sixteen elements, the i-th
    being the value of the i-th axis of the canonical order pillar, sector,
    honeycomb, branch, node, regulatory, compliance, compliance_level,
    audit_requirements, regulatory_framework, role_knowledge, role_sector,
    role_regulatory, role_compliance, location, temporal; a missing axis is
    the absent value ([None]).  The backend's [as_list] is the same
    list. *)
Theorem C4_array_in_canonical_order (coord : AxisCoordinate) :
  List.length (coordinateToArray coord) = 16
  /\ map axis_name AXIS_KEYS
     = [ "pillar"; "sector"; "honeycomb"; "branch"; "node"; "regulatory";
         "compliance"; "compliance_level"; "audit_requirements";
         "regulatory_framework"; "role_knowledge"; "role_sector";
         "role_regulatory"; "role_compliance"; "location"; "temporal" ]
  /\ (forall i : nat,
        nth_error (coordinateToArray coord) i
        = option_map (coord_get coord) (nth_error AXIS_KEYS i))
  /\ as_list coord = coordinateToArray coord
  /\ coordinateToArray coord
     = [ Some (VString (pillar coord));
         Some (match sector coord with
               | SectorStr s => VString s
               | SectorNum n => VNumber n
               end);
         match honeycomb coord with Some l => Some (VArray l) | None => None end;
         match branch coord with Some s => Some (VString s) | None => None end;
         match node coord with Some s => Some (VString s) | None => None end;
         match regulatory coord with Some s => Some (VString s) | None => None end;
         match compliance coord with Some s => Some (VString s) | None => None end;
         match compliance_level coord with Some s => Some (VString s) | None => None end;
         match audit_requirements coord with Some s => Some (VString s) | None => None end;
         match regulatory_framework coord with Some s => Some (VString s) | None => None end;
         match role_knowledge coord with Some s => Some (VString s) | None => None end;
         match role_sector coord with Some s => Some (VString s) | None => None end;
         match role_regulatory coord with Some s => Some (VString s) | None => None end;
         match role_compliance coord with Some s => Some (VString s) | None => None end;
         match location coord with Some s => Some (VString s) | None => None end;
         match temporal coord with Some s => Some (VString s) | None => None end ].
Proof.
  split; [reflexivity|]. split; [reflexivity|]. split.
  - intros i. unfold coordinateToArray. apply nth_error_map.
  - split; reflexivity.
Qed.

Lemma append_cancel_l (a x y : string) :
  (a ++ x)%string = (a ++ y)%string -> x = y.
Proof.
  induction a as [|c a IH]; simpl; intros H; [exact H|].
  injection H as H. now apply IH.
Qed.

(** Two joins that start with the same piece agree from the second piece
    on. *)
Lemma join_pipe_second (p a b : string) (l1 l2 : list string) :
  join "|" (p :: a :: l1) = join "|" (p :: b :: l2) ->
  join "|" (a :: l1) = join "|" (b :: l2).
Proof.
  change (join "|" (p :: a :: l1))
    with (p ++ String "|" (join "|" (a :: l1)))%string.
  change (join "|" (p :: b :: l2))
    with (p ++ String "|" (join "|" (b :: l2)))%string.
  intros H. apply append_cancel_l in H. now injection H.
Qed.

(** A join whose first piece is the numeral of [10 ^ 21] is not one whose
    first piece is [1e+21]. *)
Lemma numeral_not_exponent_form (x y : string) (l1 l2 : list string) :
  join "|" (decimal_numeral (10 ^ 21) :: x :: l1)
  <> join "|" (Number_toString (10 ^ 21) :: y :: l2).
Proof.
  replace (decimal_numeral (10 ^ 21)) with "1000000000000000000000"
    by (vm_compute; reflexivity).
  replace (Number_toString (10 ^ 21)) with "1e+21"
    by (vm_compute; reflexivity).
  change (join "|" ("1000000000000000000000" :: x :: l1))
    with ("1000000000000000000000" ++ String "|" (join "|" (x :: l1)))%string.
  change (join "|" ("1e+21" :: y :: l2))
    with ("1e+21" ++ String "|" (join "|" (y :: l2)))%string.
  cbn [append]. discriminate.
Qed.

(** C9, as worded: not for every numeric sector.  The sector [10 ^ 21] is
    a Number that [toString] prints as [1e+21], not as its decimal numeral,
    so, whatever the other axes, the coordinate with that number as sector
    and the coordinate with the decimal numeral as sector string have
    different encodings. *)
Theorem C9_sector_beyond_safe_integers :
  Number_toString (10 ^ 21) = "1e+21"
  /\ decimal_numeral (10 ^ 21) = "1000000000000000000000"
  /\ isSafeInteger (10 ^ 21) = false
  /\ coordinateToNuremberg (set_sector (SectorNum (10 ^ 21)) example_coordinate)
     = "PL01.1.1|1e+21||||||||||||||"
  /\ coordinateToNuremberg
       (set_sector (SectorStr (decimal_numeral (10 ^ 21))) example_coordinate)
     = "PL01.1.1|1000000000000000000000||||||||||||||"
  /\ (forall coord : AxisCoordinate,
        coordinateToNuremberg (set_sector (SectorNum (10 ^ 21)) coord)
        <> coordinateToNuremberg
             (set_sector (SectorStr (decimal_numeral (10 ^ 21))) coord)).
Proof.
  repeat (split; [vm_compute; reflexivity|]).
  intros coord H. rewrite !coordinateToNuremberg_slots in H.
  cbn [slots_of set_sector sector pillar sector_text] in H.
  apply join_pipe_second in H. symmetry in H.
  exact (numeral_not_exponent_form _ _ _ _ H).
Qed.

(** C9: the encoding is not injective even without a delimiter in any
    field: a numeric sector that is a safe integer [n] encodes as the sector
    string that is the decimal numeral of [n], and any numeric sector as the
    sector string that is its [toString]; an empty honeycomb array encodes
    as an absent honeycomb; the coordinates differ, so nothing computed from
    the string tells them apart. *)
Theorem C9_encode_not_injective :
  (forall (coord : AxisCoordinate) (n : Z),
      isSafeInteger n = true ->
      coordinateToNuremberg (set_sector (SectorNum n) coord)
      = coordinateToNuremberg (set_sector (SectorStr (decimal_numeral n)) coord)
      /\ set_sector (SectorNum n) coord
         <> set_sector (SectorStr (decimal_numeral n)) coord)
  /\ (forall (coord : AxisCoordinate) (n : Z),
      coordinateToNuremberg (set_sector (SectorNum n) coord)
      = coordinateToNuremberg (set_sector (SectorStr (Number_toString n)) coord)
      /\ set_sector (SectorNum n) coord
         <> set_sector (SectorStr (Number_toString n)) coord)
  /\ (forall coord : AxisCoordinate,
      coordinateToNuremberg (set_honeycomb (Some []) coord)
      = coordinateToNuremberg (set_honeycomb None coord)
      /\ set_honeycomb (Some []) coord <> set_honeycomb None coord)
  /\ (forall (A : Type) (decoder : string -> A) (coord : AxisCoordinate) (n : Z),
      isSafeInteger n = true ->
      decoder (coordinateToNuremberg (set_sector (SectorNum n) coord))
      = decoder (coordinateToNuremberg
                   (set_sector (SectorStr (decimal_numeral n)) coord))
      /\ decoder (coordinateToNuremberg (set_honeycomb (Some []) coord))
         = decoder (coordinateToNuremberg (set_honeycomb None coord)))
  /\ delimiter_free example_numeric_sector = true
  /\ delimiter_free (set_sector (SectorStr (decimal_numeral 5415))
                       example_coordinate) = true
  /\ delimiter_free example_empty_honeycomb = true
  /\ delimiter_free (set_honeycomb None example_coordinate) = true.
Proof.
  assert (Hs : forall coord n,
             coordinateToNuremberg (set_sector (SectorNum n) coord)
             = coordinateToNuremberg
                 (set_sector (SectorStr (Number_toString n)) coord)).
  { intros. rewrite !coordinateToNuremberg_slots. reflexivity. }
  assert (Hh : forall coord,
             coordinateToNuremberg (set_honeycomb (Some []) coord)
             = coordinateToNuremberg (set_honeycomb None coord)).
  { intros. rewrite !coordinateToNuremberg_slots. reflexivity. }
  split; [|split; [|split; [|split]]].
  - intros coord n Hn. rewrite <- (Number_toString_safe n Hn).
    split; [apply Hs|]. unfold set_sector. congruence.
  - intros coord n. split; [apply Hs|]. unfold set_sector. congruence.
  - intros coord. split; [apply Hh|]. unfold set_honeycomb. congruence.
  - intros A decoder coord n Hn.
    now rewrite <- (Number_toString_safe n Hn), Hs, Hh.
  - repeat split; reflexivity.
Qed.

Lemma C9_encode_not_injective_witness :
  coordinateToNuremberg example_numeric_sector
  = coordinateToNuremberg
      (set_sector (SectorStr (decimal_numeral 5415)) example_coordinate).
Proof.
  exact (proj1 (proj1 C9_encode_not_injective example_coordinate 5415%Z
                  eq_refl)).
Defined.

(** C10: [createEmptyCoordinate] has the empty string as pillar and as
    sector and no other axis; its encoding is fifteen [|] and nothing else,
    all sixteen slots empty, and it has no filled axis. *)
Theorem C10_empty_coordinate :
  pillar createEmptyCoordinate = ""
  /\ sector createEmptyCoordinate = SectorStr ""
  /\ coordinateToArray createEmptyCoordinate
     = [ Some (VString ""); Some (VString ""); None; None; None; None; None;
         None; None; None; None; None; None; None; None; None ]
  /\ coordinateToNuremberg createEmptyCoordinate = "|||||||||||||||"
  /\ String.length (coordinateToNuremberg createEmptyCoordinate) = 15
  /\ count_char pipe (coordinateToNuremberg createEmptyCoordinate) = 15
  /\ split_on pipe (coordinateToNuremberg createEmptyCoordinate)
     = repeat "" 16
  /\ filter is_filled (coordinateToArray createEmptyCoordinate) = []
  /\ get_filled_axes_count createEmptyCoordinate = 0.
Proof. repeat split; reflexivity. Qed.

(** ** Decoding an encoding *)

Lemma delimiter_free_string_inv (s : string) :
  delimiter_free_string s = true ->
  contains_char pipe s = false /\ contains_char comma s = false.
Proof.
  unfold delimiter_free_string. intros H.
  apply andb_true_iff in H as [Hp Hc].
  now apply negb_true_iff in Hp, Hc.
Qed.

Lemma delimiter_free_list (c : ascii) (l : list string) :
  c = pipe \/ c = comma ->
  forallb delimiter_free_string l = true ->
  forallb (fun s => negb (contains_char c s)) l = true.
Proof.
  intros Hc. induction l as [|x l IH]; simpl; [reflexivity|].
  intros H. apply andb_true_iff in H as [Hx Hl].
  apply delimiter_free_string_inv in Hx as [Hp Hm].
  rewrite (IH Hl), andb_true_r.
  destruct Hc; subst c; [rewrite Hp|rewrite Hm]; reflexivity.
Qed.

Lemma decode_slot_or_empty (v : option string) :
  present_nonempty v = true -> decode_slot (or_empty v) = v.
Proof.
  destruct v as [s|]; simpl; [|reflexivity].
  unfold decode_slot. intros H. apply negb_true_iff in H. now rewrite H.
Qed.

Lemma decode_honeycomb_join (h : option (list string)) :
  honeycomb_normal h = true ->
  delimiter_free_value (option_map VArray h) = true ->
  decode_honeycomb (match h with Some l => join "," l | None => "" end) = h.
Proof.
  destruct h as [l|]; simpl; [|reflexivity].
  unfold decode_honeycomb. intros Hn Hd. apply negb_true_iff in Hn.
  rewrite Hn. f_equal. destruct l as [|x l]; [discriminate|].
  apply (split_on_join comma). apply delimiter_free_list; [now right|exact Hd].
Qed.

Lemma slot_pipe_free_string (o : option string) :
  delimiter_free_value (option_map VString o) = true ->
  negb (contains_char pipe (or_empty o)) = true.
Proof.
  destruct o as [s|]; simpl; [|reflexivity].
  intros H. apply delimiter_free_string_inv in H as [H _]. now rewrite H.
Qed.

Lemma slot_pipe_free_array (h : option (list string)) :
  delimiter_free_value (option_map VArray h) = true ->
  negb (contains_char pipe
          (match h with Some l => join "," l | None => "" end)) = true.
Proof.
  destruct h as [l|]; simpl; [|reflexivity].
  intros H. apply negb_true_iff. apply contains_char_join; [reflexivity|].
  apply delimiter_free_list; [now left|exact H].
Qed.

(** The roundtrip on the coordinates in normal form. *)
Lemma decode_encode (coord : AxisCoordinate) :
  delimiter_free coord = true ->
  normal_form coord = true ->
  decode (coordinateToNuremberg coord) = Some coord.
Proof.
  intros Hd Hn. rewrite coordinateToNuremberg_slots.
  unfold decode, slots_of.
  destruct coord as [p s h b n r c cl a rf rk rs rr rc lo t].
  unfold delimiter_free in Hd.
  cbn [forallb AXIS_KEYS coord_get pillar sector honeycomb branch node
       regulatory compliance compliance_level audit_requirements
       regulatory_framework role_knowledge role_sector role_regulatory
       role_compliance location temporal] in *.
  unfold normal_form in Hn.
  cbn [pillar sector honeycomb branch node
       regulatory compliance compliance_level audit_requirements
       regulatory_framework role_knowledge role_sector role_regulatory
       role_compliance location temporal] in Hn.
  repeat (apply andb_true_iff in Hn as [Hn ?]).
  repeat (apply andb_true_iff in Hd as [? Hd]). clear Hd.
  destruct s as [s|k]; [clear Hn|discriminate Hn].
  rewrite (split_on_join pipe).
  - cbn [sector_text].
    rewrite decode_honeycomb_join by assumption.
    rewrite !decode_slot_or_empty by assumption.
    reflexivity.
  - cbn [forallb sector_text].
    repeat match goal with
           | X : delimiter_free_value (option_map VString _) = true |- _ =>
               apply slot_pipe_free_string in X; rewrite X
           | X : delimiter_free_value (option_map VArray _) = true |- _ =>
               apply slot_pipe_free_array in X; rewrite X
           | X : delimiter_free_value (Some _) = true |- _ =>
               simpl in X; apply delimiter_free_string_inv in X as [X _];
               rewrite X
           end.
    reflexivity.
Qed.

Section AnyParser.

Variable fromisoformat : string -> option DateTime.

(** Without a temporal axis, a coordinate with pillar and sector is
    valid whatever the datetime parser. *)
Lemma is_valid_without_temporal (coord : AxisCoordinate) :
  temporal coord = None ->
  required_present coord = true ->
  is_valid fromisoformat coord = true.
Proof.
  unfold is_valid, validate, required_present. intros Ht Hr.
  rewrite Ht. apply andb_true_iff in Hr as [Hp Hs].
  cbn [validate_temporal coord_get].
  destruct (pillar coord); [discriminate|].
  destruct (sector coord) as [[|]|]; [discriminate| |]; reflexivity.
Qed.

(** No decoder whatsoever inverts the encoding on the valid coordinates
    free of delimiters: two of them share their encoding. *)
Lemma no_decoder_inverts_encode (decoder : string -> option AxisCoordinate) :
  exists coord : AxisCoordinate,
    is_valid fromisoformat coord = true
    /\ delimiter_free coord = true
    /\ decoder (coordinateToNuremberg coord) <> Some coord.
Proof.
  assert (Hsame : coordinateToNuremberg example_empty_honeycomb
                  = coordinateToNuremberg example_coordinate)
    by reflexivity.
  destruct (decoder (coordinateToNuremberg example_coordinate))
    as [c|] eqn:E.
  - destruct (honeycomb c) as [l|] eqn:Eh.
    + exists example_coordinate.
      split; [now apply is_valid_without_temporal|].
      split; [reflexivity|].
      rewrite E. intros H. injection H as ->. discriminate Eh.
    + exists example_empty_honeycomb.
      split; [now apply is_valid_without_temporal|].
      split; [reflexivity|].
      rewrite Hsame, E. intros H. injection H as ->. discriminate Eh.
  - exists example_coordinate.
    split; [now apply is_valid_without_temporal|].
    split; [reflexivity|].
    rewrite E. discriminate.
Qed.

End AnyParser.

(** C1, as stated, fails: each of these three valid coordinates has no [|]
    and no [,] in any field, and does not come back from its encoding.  The
    first has a numeric sector, the second an empty honeycomb array, the
    third a branch that is present but empty. *)
Lemma C1_roundtrip_counterexample :
  (is_valid Iso8601.fromisoformat example_numeric_sector = true
   /\ delimiter_free example_numeric_sector = true
   /\ decode (coordinateToNuremberg example_numeric_sector)
      <> Some example_numeric_sector)
  /\ (is_valid Iso8601.fromisoformat example_empty_honeycomb = true
      /\ delimiter_free example_empty_honeycomb = true
      /\ decode (coordinateToNuremberg example_empty_honeycomb)
         <> Some example_empty_honeycomb)
  /\ (is_valid Iso8601.fromisoformat example_empty_branch = true
      /\ delimiter_free example_empty_branch = true
      /\ decode (coordinateToNuremberg example_empty_branch)
         <> Some example_empty_branch).
Proof.
  repeat split; try reflexivity; vm_compute; discriminate.
Qed.

(** C1, amended: for every coordinate (valid or not) in which no field
    value contains [|] or [,], whose sector is a string, whose optional
    string axes are each absent or non-empty, and whose honeycomb is absent
    or an array that does not render as the empty slot (neither [[]] nor
    [[""]]), decoding the encoding returns the coordinate. *)
Theorem C1_roundtrip_normal_form (coord : AxisCoordinate)
  (Hfree : delimiter_free coord = true)
  (Hnormal : normal_form coord = true) :
  decode (coordinateToNuremberg coord) = Some coord.
Proof. now apply decode_encode. Qed.

Lemma C1_roundtrip_normal_form_witness :
  decode (coordinateToNuremberg example_full) = Some example_full.
Proof.
  apply (C1_roundtrip_normal_form example_full); reflexivity.
Defined.

(** The honeycomb arrays that render as the empty slot. *)
Lemma honeycomb_renders_empty (l : list string) :
  honeycomb_normal (Some l) = false <-> l = [] \/ l = [""].
Proof.
  unfold honeycomb_normal. rewrite negb_false_iff. split.
  - destruct l as [|x [|y l]]; simpl.
    + now left.
    + intros H. right. now rewrite (is_empty_true _ H).
    + destruct x; discriminate.
  - intros [-> | ->]; reflexivity.
Qed.

(** ** Completeness *)

Lemma filter_length_sum {A : Type} (f : A -> bool) (l : list A) :
  List.length (filter f l) = list_sum (map (fun x => bit (f x)) l).
Proof.
  induction l as [|x l IH]; [reflexivity|].
  simpl. destruct (f x); simpl; now rewrite IH.
Qed.

Lemma get_filled_axes_count_sum (coord : AxisCoordinate) :
  get_filled_axes_count coord
  = list_sum (map (fun key => bit (is_filled (coord_get coord key))) AXIS_KEYS).
Proof.
  unfold get_filled_axes_count, as_list.
  now rewrite filter_length_sum, map_map.
Qed.




(** Assigning an axis reads back, and leaves the other axes alone. *)
Lemma coord_get_set_same (key : AxisKey) (v : AxisValue) (coord : AxisCoordinate) :
  admits key v = true -> coord_get (coord_set key v coord) key = Some v.
Proof. destruct key, v; simpl; intros H; try discriminate H; reflexivity. Qed.

Lemma coord_get_set_other (key key' : AxisKey) (v : AxisValue)
  (coord : AxisCoordinate) :
  key <> key' -> coord_get (coord_set key v coord) key' = coord_get coord key'.
Proof.
  intros H. destruct key, key', v; try reflexivity; now elim H.
Qed.


(** Filling an axis that was not filled adds exactly one to the count. *)
Lemma get_filled_axes_count_coord_set (key : AxisKey) (v : AxisValue)
  (coord : AxisCoordinate) :
  admits key v = true -> is_filled (Some v) = true ->
  is_filled (coord_get coord key) = false ->
  get_filled_axes_count (coord_set key v coord)
  = S (get_filled_axes_count coord).
Proof.
  intros Ha Hf Hu. rewrite !get_filled_axes_count_sum.
  pose proof (coord_get_set_same key v coord Ha) as Hsame.
  pose proof (fun k => coord_get_set_other key k v coord) as Hother.
  cbn [map AXIS_KEYS]. unfold list_sum. cbn [fold_right].
  destruct key;
    rewrite Hsame, Hu, Hf, ?Hother by discriminate; cbn [bit]; lia.
Qed.




(** The ratios of the sample coordinates. *)
Example completeness_examples :
  (get_axis_completeness_ratio createEmptyCoordinate == 0)%Q
  /\ (get_axis_completeness_ratio example_coordinate == 1 # 8)%Q
  /\ (get_axis_completeness_ratio example_full == 11 # 16)%Q.
Proof. repeat split. Qed.

(** Filling one axis that was not filled raises the ratio by one
    sixteenth. *)
Lemma get_axis_completeness_ratio_coord_set (key : AxisKey) (v : AxisValue)
  (coord : AxisCoordinate) :
  admits key v = true -> is_filled (Some v) = true ->
  is_filled (coord_get coord key) = false ->
  (get_axis_completeness_ratio (coord_set key v coord)
   == get_axis_completeness_ratio coord + (1 # 16))%Q.
Proof.
  intros Ha Hf Hu. unfold get_axis_completeness_ratio.
  rewrite (get_filled_axes_count_coord_set _ _ _ Ha Hf Hu).
  unfold Qeq, Qplus. simpl. lia.
Qed.

(** ** Validation *)

(** Replacing every [Z] is the suffix rewrite of the specification when
    the only [Z] is the last character. *)
Lemma str_replace_suffix (s : string) :
  contains_char "Z" s = false ->
  str_replace "Z" "+00:00" s = s
  /\ normalize_utc_suffix s = s
  /\ str_replace "Z" "+00:00" (s ++ "Z")%string = (s ++ "+00:00")%string
  /\ normalize_utc_suffix (s ++ "Z")%string = (s ++ "+00:00")%string.
Proof.
  induction s as [|c s IH]; [now repeat split|].
  cbn [contains_char]. intros H. apply orb_false_iff in H as [Hc Hs].
  destruct (IH Hs) as (I1 & I2 & I3 & I4).
  cbn [str_replace append]. rewrite Hc, I1, I3.
  repeat split; try reflexivity.
  - cbn [normalize_utc_suffix]. rewrite I2, Hc. now destruct s.
  - cbn [normalize_utc_suffix]. rewrite I4. now destruct s.
Qed.

Section ValidationProperties.

Variable fromisoformat : string -> option DateTime.

Lemma has_substring_error_message (key : AxisKey) (detail : string) :
  has_substring (axis_name key) (error_message (mkValidationError key detail))
  = true.
Proof.
  unfold error_message. cbn [error_axis error_detail].
  destruct key; reflexivity.
Qed.


(** The report is valid exactly when the checks pass. *)
Lemma is_valid_checks (coord : AxisCoordinate) :
  is_valid fromisoformat coord
  = match validate_temporal fromisoformat (temporal coord) with
    | Ok _ => required_present coord
    | Raise _ => false
    end.
Proof.
  unfold is_valid, validate, required_present, validate_pillar.
  destruct (validate_temporal fromisoformat (temporal coord));
    destruct (negb (is_empty (pillar coord))) eqn:E; cbn [findings app];
    try reflexivity; cbn [coord_get];
    destruct (pillar coord), (sector coord) as [[|]|]; try reflexivity;
    discriminate E.
Qed.

(** A coordinate with pillar and sector and no temporal axis is valid,
    with no errors. *)
Lemma validate_without_temporal (coord : AxisCoordinate) :
  required_present coord = true ->
  temporal coord = None ->
  validate fromisoformat coord = Ok {| valid := true; errors := None |}.
Proof.
  unfold required_present, validate, validate_pillar. intros Hr Ht.
  apply andb_true_iff in Hr as [Hp Hs]. rewrite Ht, Hp.
  cbn [validate_temporal findings coord_get app].
  destruct (pillar coord); [discriminate|].
  destruct (sector coord) as [[|]|]; [discriminate| |]; reflexivity.
Qed.

(** A temporal value the parser refuses, once every [Z] in it is replaced
    by [+00:00], is reported: the coordinate is invalid, and the one error
    names the temporal axis. *)
Lemma validate_refused_temporal (coord : AxisCoordinate) (t : string) :
  required_present coord = true ->
  fromisoformat (str_replace "Z" "+00:00" t) = None ->
  exists message : string,
    validate fromisoformat (set_temporal (Some t) coord)
    = Ok {| valid := false; errors := Some [message] |}
    /\ has_substring "temporal" message = true.
Proof.
  unfold required_present. intros Hr Hbad.
  apply andb_true_iff in Hr as [Hp Hs].
  exists (error_message
            (mkValidationError K_temporal
               "Temporal must be valid ISO 8601 format")).
  split; [|reflexivity].
  unfold validate, validate_pillar.
  cbn [set_temporal temporal pillar sector coord_get validate_temporal].
  rewrite Hbad, Hp. cbn [findings app].
  destruct (pillar coord); [discriminate|].
  destruct (sector coord) as [[|]|]; [discriminate| |]; reflexivity.
Qed.


End ValidationProperties.


(** The two validations the specification lists, and one with a UTC
    timestamp, run with the parser of [Iso8601]. *)
Example validate_example_coordinate :
  validate Iso8601.fromisoformat example_coordinate
  = Ok {| valid := true; errors := None |}.
Proof. reflexivity. Qed.

Example validate_not_a_date :
  validate Iso8601.fromisoformat
    (set_temporal (Some "not-a-date") example_coordinate)
  = Ok {| valid := false;
          errors := Some ["temporal: Temporal must be valid ISO 8601 format"] |}.
Proof. reflexivity. Qed.

Example validate_utc_timestamp :
  Iso8601.fromisoformat "2024-06-04T12:00:00Z" = None
  /\ validate Iso8601.fromisoformat example_full
     = Ok {| valid := true; errors := None |}.
Proof. split; reflexivity. Qed.

(** What the parser of the platform takes and refuses: the documented
    format; one character, whatever it is, between the time and the zone
    sign, and [:] before the fraction; not a trailing character without a
    zone, a month 13 or an offset of 24 hours. *)
Example fromisoformat_examples :
  Iso8601.fromisoformat "2024-06-04T12:00:00.250+05:30"
  = Some (mkDateTime 2024 6 4 12 0 0 250000 (Some 19800000000%Z))
  /\ Iso8601.fromisoformat "2024-06-04"
     = Some (mkDateTime 2024 6 4 0 0 0 0 None)
  /\ Iso8601.fromisoformat "2024-06-04T12:00:00x+00:00"
     = Some (mkDateTime 2024 6 4 12 0 0 0 (Some 0%Z))
  /\ Iso8601.fromisoformat "2024-06-04T12:00:00:123456"
     = Some (mkDateTime 2024 6 4 12 0 0 123456 None)
  /\ Iso8601.fromisoformat "2024-06-04T12:00:00x" = None
  /\ Iso8601.fromisoformat "2024-13-04" = None
  /\ Iso8601.fromisoformat "2024-06-04T12:00+24:00" = None.
Proof. vm_compute. repeat split. Qed.

(** C6: the temporal value [2024-01-01Z:30] does not parse as a datetime,
    as it stands or after its UTC [Z] suffix (it has none) is rewritten to
    [+00:00]; [validate_temporal] replaces the [Z] in the middle as well,
    parses [2024-01-01+00:00:30] and accepts the value, so [validate]
    answers [{valid: true}] on a coordinate that holds it. *)
Theorem C6_inner_Z_accepted :
  Iso8601.fromisoformat "2024-01-01Z:30" = None
  /\ Iso8601.fromisoformat (normalize_utc_suffix "2024-01-01Z:30") = None
  /\ str_replace "Z" "+00:00" "2024-01-01Z:30" = "2024-01-01+00:00:30"
  /\ validate_temporal Iso8601.fromisoformat (Some "2024-01-01Z:30")
     = Ok (Some "2024-01-01Z:30")
  /\ validate Iso8601.fromisoformat
       (set_temporal (Some "2024-01-01Z:30") example_coordinate)
     = Ok {| valid := true; errors := None |}.
Proof. repeat split; reflexivity. Qed.

(** ** Hashes *)

(** The derived tables against the first and last words FIPS 180-4
    prints. *)
Example round_constants_ends :
  List.length SHA256.round_constants = 64
  /\ hd 0%Z SHA256.round_constants = 0x428a2f98%Z
  /\ last SHA256.round_constants 0%Z = 0xc67178f2%Z
  /\ hd 0%Z SHA256.initial_words = 0x6a09e667%Z
  /\ last SHA256.initial_words 0%Z = 0x5be0cd19%Z.
Proof. repeat split; reflexivity. Qed.

Example sha256_empty :
  SHA256.hexdigest ""
  = "e3b0c44298fc1c149afbf4c8996fb92427ae41e4649b934ca495991b7852b855".
Proof. vm_compute. reflexivity. Qed.

Example sha256_abc :
  SHA256.hexdigest "abc"
  = "ba7816bf8f01cfea414140de5dae2223b00361a396177a9cb410ff61f20015ad".
Proof. vm_compute. reflexivity. Qed.

Example sha256_two_blocks :
  SHA256.hexdigest "abcdbcdecdefdefgefghfghighijhijkijkljklmklmnlmnomnopnopq"
  = "248d6a61d20638b8e5c026930c3e6039a33ce45964ff2167f6ecedd419db06c1".
Proof. vm_compute. reflexivity. Qed.

Example coordinate_hash_empty :
  coordinate_hash createEmptyCoordinate
  = "c33e73280b35cdc09791e97f55c9a08d7cd41d0be2a6360c3cf6ab6133aa070c".
Proof. vm_compute. reflexivity. Qed.

Example hashes_example_full :
  nuremberg_number example_full
  = "PL12.2.1|541511|PL12-5415,PL08-Healthcare|TECH.AI.ML|N-PL12-5415|GDPR|ISO-27001|strict|||Data Scientist||||US-CA|2024-06-04T12:00:00Z"
  /\ coordinate_hash example_full
     = "fb8b7240aa26f4903332f1a8562d987cdd8218d5b6161d52bcec6bee7031fab0"
  /\ unified_system_id example_full = SHA256.hexdigest "PL12.2.1|541511|US-CA"
  /\ unified_system_id example_full
     = "e43a643a1f68c53701af35bf4ee62c1f85045b83774cb5026a8d167dac038805".
Proof. vm_compute. repeat split; reflexivity. Qed.

(** Without a location the identifier is the digest of the pillar, the
    sector and an empty third field; of the empty coordinate, the digest of
    two [|]. *)
Example unified_system_id_examples :
  unified_system_id example_coordinate = SHA256.hexdigest "PL01.1.1|5415|"
  /\ unified_system_id example_coordinate
     = "d57bc42ddb4135b23f7f82f4f505d488ba22df5fc0ce3565f77ec9025979995f"
  /\ unified_system_id createEmptyCoordinate = SHA256.hexdigest "||"
  /\ unified_system_id createEmptyCoordinate
     = "565d240f5343e625ae579a4d45a770f1f02c6368b5ed4d06da4fbe6f47c28866".
Proof. vm_compute. repeat split; reflexivity. Qed.

Lemma length_append (s t : string) :
  String.length (s ++ t)%string = String.length s + String.length t.
Proof. induction s as [|a s IH]; simpl; [reflexivity|now rewrite IH]. Qed.

Lemma all_chars_app (p : ascii -> bool) (s t : string) :
  all_chars p (s ++ t)%string = all_chars p s && all_chars p t.
Proof.
  induction s as [|a s IH]; simpl; [reflexivity|].
  now rewrite IH, andb_assoc.
Qed.







Lemma unified_system_id_of_fields (c1 c2 : AxisCoordinate) :
  pillar c1 = pillar c2 ->
  sector c1 = sector c2 ->
  location c1 = location c2 ->
  unified_system_id c1 = unified_system_id c2.
Proof. unfold unified_system_id. now intros -> -> ->. Qed.






(** * The pages and the API client: properties *)

(** ** Trimming *)

Lemma append_nil_r (s : string) : (s ++ "")%string = s.
Proof. induction s as [|c s IH]; simpl; [reflexivity|now rewrite IH]. Qed.

Lemma append_assoc (a b c : string) :
  ((a ++ b) ++ c)%string = (a ++ (b ++ c))%string.
Proof. induction a as [|x a IH]; simpl; [reflexivity|now rewrite IH]. Qed.

Lemma string_rev_app (a b : string) :
  string_rev (a ++ b) = (string_rev b ++ string_rev a)%string.
Proof.
  induction a as [|x a IH]; simpl.
  - now rewrite append_nil_r.
  - now rewrite IH, append_assoc.
Qed.

Lemma string_rev_involutive (s : string) : string_rev (string_rev s) = s.
Proof.
  induction s as [|c s IH]; simpl; [reflexivity|].
  now rewrite string_rev_app, IH.
Qed.

Lemma string_rev_length (s : string) :
  String.length (string_rev s) = String.length s.
Proof.
  induction s as [|c s IH]; simpl; [reflexivity|].
  rewrite length_append, IH. simpl. lia.
Qed.

(** A stripped prefix is a prefix. *)
Lemma strip_prefix_app (p s rest : string) :
  strip_prefix p s = Some rest -> s = (p ++ rest)%string.
Proof.
  revert s. induction p as [|a p IH]; intros s H.
  - simpl in H. now injection H as ->.
  - destruct s as [|b s]; simpl in H; [discriminate|].
    destruct (Ascii.eqb a b) eqn:E; [|discriminate].
    apply Ascii.eqb_eq in E as ->. simpl. f_equal. now apply IH.
Qed.

Lemma strip_prefix_of_app (p rest : string) :
  strip_prefix p (p ++ rest) = Some rest.
Proof.
  induction p as [|a p IH]; simpl; [reflexivity|].
  now rewrite Ascii.eqb_refl.
Qed.

(** A string that starts with [p] still does when it is continued. *)
Lemma strip_prefix_extend (p s rest tail : string) :
  strip_prefix p s = Some rest ->
  strip_prefix p (s ++ tail) = Some (rest ++ tail)%string.
Proof.
  intros H. rewrite (strip_prefix_app _ _ _ H), append_assoc.
  apply strip_prefix_of_app.
Qed.

Lemma strip_any_app (ws : list string) (s rest : string) :
  strip_any ws s = Some rest ->
  exists w, In w ws /\ s = (w ++ rest)%string.
Proof.
  induction ws as [|w ws IH]; simpl; [discriminate|].
  destruct (strip_prefix w s) as [r|] eqn:E.
  - intros H. injection H as <-. exists w. split; [now left|].
    now apply strip_prefix_app.
  - intros H. destruct (IH H) as (w' & Hin & ->). exists w'. split; auto.
Qed.

Lemma strip_any_extend (ws : list string) (s rest tail : string) :
  strip_any ws s = Some rest -> strip_any ws (s ++ tail) <> None.
Proof.
  induction ws as [|w ws IH]; simpl; [discriminate|].
  destruct (strip_prefix w s) as [r|] eqn:E.
  - intros _. now rewrite (strip_prefix_extend _ _ _ tail E).
  - intros H. destruct (strip_prefix w (s ++ tail)); [discriminate|].
    now apply IH.
Qed.

Lemma strip_any_shorter (ws : list string) (s rest : string) :
  all_nonempty ws = true -> strip_any ws s = Some rest ->
  String.length rest < String.length s.
Proof.
  intros Hne H. destruct (strip_any_app _ _ _ H) as (w & Hin & ->).
  unfold all_nonempty in Hne. rewrite forallb_forall in Hne.
  specialize (Hne w Hin). rewrite length_append.
  destruct w; [discriminate|simpl; lia].
Qed.

Lemma strip_leading_suffix (n : nat) (ws : list string) (s : string) :
  exists p, s = (p ++ strip_leading n ws s)%string.
Proof.
  revert s. induction n as [|n IH]; intros s; simpl.
  - now exists "".
  - destruct (strip_any ws s) as [rest|] eqn:E; [|now exists ""].
    destruct (strip_any_app _ _ _ E) as (w & _ & ->).
    destruct (IH rest) as (p & Hp). exists (w ++ p)%string.
    now rewrite append_assoc, <- Hp.
Qed.

Lemma strip_leading_fixed (n : nat) (ws : list string) (s : string) :
  strip_any ws s = None -> strip_leading n ws s = s.
Proof. intros H. destruct n; simpl; [reflexivity|now rewrite H]. Qed.

(** With fuel for every character, nothing is left to strip. *)
Lemma strip_leading_done (n : nat) (ws : list string) (s : string) :
  all_nonempty ws = true -> String.length s <= n ->
  strip_any ws (strip_leading n ws s) = None.
Proof.
  intros Hne. revert s. induction n as [|n IH]; intros s Hlen; simpl.
  - destruct (strip_any ws s) as [rest|] eqn:E; [|reflexivity].
    pose proof (strip_any_shorter _ _ _ Hne E). lia.
  - destruct (strip_any ws s) as [rest|] eqn:E; [|exact E].
    apply IH. pose proof (strip_any_shorter _ _ _ Hne E). lia.
Qed.

Lemma white_space_nonempty :
  all_nonempty white_space = true
  /\ all_nonempty (map string_rev white_space) = true.
Proof. split; reflexivity. Qed.

Lemma trimStart_suffix (s : string) : exists p, s = (p ++ trimStart s)%string.
Proof. apply strip_leading_suffix. Qed.

Lemma trimEnd_prefix (s : string) : exists q, s = (trimEnd s ++ q)%string.
Proof.
  unfold trimEnd.
  destruct (strip_leading_suffix (String.length s)
              (map string_rev white_space) (string_rev s)) as (p & Hp).
  exists (string_rev p).
  rewrite <- string_rev_app, <- Hp. symmetry. apply string_rev_involutive.
Qed.

Lemma trimStart_done (s : string) :
  strip_any white_space (trimStart s) = None.
Proof.
  apply strip_leading_done; [apply white_space_nonempty|apply Nat.le_refl].
Qed.

Lemma trimEnd_done (s : string) :
  strip_any (map string_rev white_space) (string_rev (trimEnd s)) = None.
Proof.
  unfold trimEnd. rewrite string_rev_involutive.
  apply strip_leading_done; [apply white_space_nonempty|].
  now rewrite string_rev_length.
Qed.

(** The trimmed text is a part of the text. *)
Lemma trim_part (s : string) :
  exists p q, s = (p ++ trim s ++ q)%string.
Proof.
  destruct (trimStart_suffix s) as (p & Hp).
  destruct (trimEnd_prefix (trimStart s)) as (q & Hq).
  exists p, q. unfold trim. now rewrite <- Hq.
Qed.

(** Trimming a trimmed text changes nothing. *)
Lemma trim_idempotent (s : string) : trim (trim s) = trim s.
Proof.
  unfold trim at 1.
  assert (Hstart : trimStart (trim s) = trim s).
  { apply strip_leading_fixed.
    destruct (strip_any white_space (trim s)) as [r|] eqn:E; [|reflexivity].
    destruct (trimEnd_prefix (trimStart s)) as (q & Hq).
    pose proof (strip_any_extend _ _ _ q E) as Hne.
    fold (trim s) in Hq. rewrite <- Hq, trimStart_done in Hne.
    now elim Hne. }
  rewrite Hstart. unfold trimEnd at 1.
  rewrite strip_leading_fixed by apply trimEnd_done.
  apply string_rev_involutive.
Qed.

(** A leading space goes with the rest of the leading white space. *)
Lemma trim_leading_space (s : string) : trim (String " " s) = trim s.
Proof.
  assert (H : trimStart (String " " s) = trimStart s) by reflexivity.
  unfold trim. now rewrite H.
Qed.

Lemma trim_keeps_out (c : ascii) (s : string) :
  contains_char c s = false -> contains_char c (trim s) = false.
Proof.
  destruct (trim_part s) as (p & q & Hs). intros H. rewrite Hs in H.
  rewrite !contains_char_app in H.
  apply orb_false_iff in H as [_ H]. now apply orb_false_iff in H as [H _].
Qed.

Lemma trim_empty (s : string) : trim s = "" -> trim (trim s) = "".
Proof. intros H. now rewrite trim_idempotent. Qed.

(** ** The coordinate builder *)

Lemma AxisKey_eqb_eq (a b : AxisKey) : AxisKey_eqb a b = true <-> a = b.
Proof.
  split; [|intros ->; apply String.eqb_refl].
  destruct a, b; intros H; try reflexivity; discriminate H.
Qed.

Lemma AxisKey_eqb_refl (a : AxisKey) : AxisKey_eqb a a = true.
Proof. now apply AxisKey_eqb_eq. Qed.

(** On the state of an [AxisCoordinate] the preview is the encoding. *)
Lemma nurembergString_coord_get (coord : AxisCoordinate) :
  nurembergString (coord_get coord) = coordinateToNuremberg coord.
Proof. reflexivity. Qed.

Lemma nuremberg_slot_stored (value : FieldInput) :
  nuremberg_slot (stored_value value) = input_text value.
Proof. destruct value as [[|c s]|l]; reflexivity. Qed.

(** X1.  An edit changes its own slot of the Nuremberg preview and no
    other: after [updateCoordinate(key, value)] the slot of [key] is the
    text typed (an array joined with commas, nothing for the empty text)
    and the other fifteen slots are what they were. *)
Theorem nurembergString_updateCoordinate (key : AxisKey) (value : FieldInput)
  (coordinate : CoordinateState) :
  nurembergString (updateCoordinate key value coordinate)
  = join "|"
      (map (fun k => if AxisKey_eqb k key then input_text value
                     else nuremberg_slot (coordinate k)) AXIS_KEYS).
Proof.
  unfold nurembergString, updateCoordinate. f_equal. apply map_ext.
  intros k. destruct (AxisKey_eqb k key); [|reflexivity].
  apply nuremberg_slot_stored.
Qed.

(** X2.  A text input is controlled faithfully: after typing [text] into
    the field of [key], that field shows exactly [text] (the empty text is
    stored as [undefined] and shows as empty), and every other field shows
    what it showed before. *)
Theorem field_value_change_field (key : AxisKey) (text : string)
  (coordinate : CoordinateState) :
  forall k : AxisKey,
    field_value (change_field key text coordinate) k
    = if AxisKey_eqb k key then text else field_value coordinate k.
Proof.
  intros k. unfold field_value, change_field, updateCoordinate.
  destruct (AxisKey_eqb k key); [|reflexivity].
  destruct text; reflexivity.
Qed.

(** The pieces of a split do not hold the separator. *)
Lemma split_on_pieces (sep : ascii) (s : string) :
  forallb (fun piece => negb (contains_char sep piece)) (split_on sep s) = true.
Proof.
  induction s as [|c s IH]; [reflexivity|].
  simpl. destruct (Ascii.eqb c sep) eqn:E; [exact IH|].
  destruct (split_on sep s) as [|piece pieces]; simpl in *.
  - now rewrite E.
  - rewrite E. exact IH.
Qed.

(** What the honeycomb input stores: entries without a comma and without
    outer white space. *)
Lemma honeycomb_entries_clean (text : string) :
  Forall (fun x => contains_char comma x = false /\ trim x = x)
    (honeycomb_entries text).
Proof.
  unfold honeycomb_entries. destruct (is_empty text); [constructor|].
  apply Forall_map. apply Forall_forall. intros piece Hin. split.
  - apply trim_keeps_out.
    pose proof (split_on_pieces comma text) as H.
    rewrite forallb_forall in H. specialize (H piece Hin).
    now apply negb_true_iff in H.
  - apply trim_idempotent.
Qed.

(** Entries shown with [", "] between them split at the commas into the
    first entry and the others behind a space. *)
Lemma split_on_join_comma_space (x : string) (l : list string) :
  Forall (fun y => contains_char comma y = false) (x :: l) ->
  split_on comma (join ", " (x :: l)) = x :: map (String " ") l.
Proof.
  revert x. induction l as [|y l IH]; intros x H.
  - simpl. apply split_on_absent. now inversion H.
  - change (join ", " (x :: y :: l))
      with (x ++ String comma (String " " (join ", " (y :: l))))%string.
    inversion H as [|? ? Hx Hl]; subst.
    rewrite (split_on_app _ _ _ Hx). f_equal.
    assert (E : split_on comma (String " " (join ", " (y :: l)))
                = String " " y :: map (String " ") l).
    { cbn [split_on]. change (Ascii.eqb " " comma) with false. cbv iota.
      rewrite (IH y Hl). reflexivity. }
    exact E.
Qed.

(** Clean entries come back from the text the field shows for them. *)
Lemma honeycomb_entries_join (l : list string) :
  Forall (fun x => contains_char comma x = false /\ trim x = x) l ->
  l <> [""] ->
  honeycomb_entries (join ", " l) = l.
Proof.
  intros Hclean Hne. destruct l as [|x l]; [reflexivity|].
  unfold honeycomb_entries.
  destruct (is_empty (join ", " (x :: l))) eqn:E.
  - apply is_empty_true in E. destruct l as [|y l].
    + simpl in E. subst x. now elim Hne.
    + change (join ", " (x :: y :: l))
        with (x ++ String comma (String " " (join ", " (y :: l))))%string in E.
      destruct x; discriminate E.
  - rewrite split_on_join_comma_space.
    + inversion Hclean as [|? ? [_ Hx] Hl]; subst. cbn [map]. rewrite Hx.
      f_equal. clear -Hl. induction Hl as [|y l [_ Hy] _ IH]; [reflexivity|].
      cbn [map]. now rewrite trim_leading_space, Hy, IH.
    + eapply Forall_impl; [|exact Hclean]. now intros ? [? _].
Qed.

(** X3.  The honeycomb field is stable under its own display: once a text
    has been typed, the field shows the stored entries joined with [", "],
    and handing that text to the input again stores the same entries,
    unless the only entry is the empty one (then the field shows nothing,
    and nothing typed is the empty array). *)
Theorem honeycomb_entries_stable (text : string) (coordinate : CoordinateState)
  (Hentries : honeycomb_entries text <> [""]) :
  honeycomb_value (change_honeycomb text coordinate)
  = join ", " (honeycomb_entries text)
  /\ honeycomb_entries (honeycomb_value (change_honeycomb text coordinate))
     = honeycomb_entries text
  /\ forall k : AxisKey,
       change_honeycomb (honeycomb_value (change_honeycomb text coordinate))
         (change_honeycomb text coordinate) k
       = change_honeycomb text coordinate k.
Proof.
  assert (E : honeycomb_value (change_honeycomb text coordinate)
              = join ", " (honeycomb_entries text)) by reflexivity.
  assert (S : honeycomb_entries (join ", " (honeycomb_entries text))
              = honeycomb_entries text).
  { apply honeycomb_entries_join; [apply honeycomb_entries_clean|assumption]. }
  split; [exact E|]. split; [now rewrite E|].
  intros k. rewrite E. unfold change_honeycomb, updateCoordinate.
  destruct (AxisKey_eqb k K_honeycomb); [|reflexivity]. now rewrite S.
Qed.

Lemma honeycomb_entries_stable_witness :
  honeycomb_entries "a, b, , c" = honeycomb_entries "a ,b,, c ".
Proof.
  refine (let H := honeycomb_entries_stable "a ,b,, c "
                     initial_coordinate_state _ in
          proj1 (proj2 H)).
  vm_compute. discriminate.
Defined.

(** X4.  The entries the honeycomb input stores never hold a comma or
    outer white space, so for a text that is not empty the honeycomb slot
    of the Nuremberg string splits at its commas into exactly the stored
    entries. *)
Theorem honeycomb_slot_splits_back (text : string)
  (Htext : is_empty text = false) :
  Forall (fun x => contains_char comma x = false /\ trim x = x)
    (honeycomb_entries text)
  /\ split_on comma
       (nuremberg_slot (stored_value (ListInput (honeycomb_entries text))))
     = honeycomb_entries text.
Proof.
  split; [apply honeycomb_entries_clean|].
  pose proof (honeycomb_entries_clean text) as Hclean.
  cbn [stored_value nuremberg_slot].
  unfold honeycomb_entries in *. rewrite Htext in *.
  pose proof (split_on_nonempty comma text) as Hne.
  destruct (map trim (split_on comma text)) as [|x l] eqn:E.
  - destruct (split_on comma text); [now elim Hne|discriminate E].
  - apply (split_on_join comma). apply forallb_forall. intros y Hy.
    rewrite Forall_forall in Hclean. destruct (Hclean y Hy) as [Hc _].
    now rewrite Hc.
Qed.

Lemma honeycomb_slot_splits_back_witness :
  split_on comma
    (nuremberg_slot (stored_value (ListInput (honeycomb_entries "a ,b,, c "))))
  = honeycomb_entries "a ,b,, c ".
Proof.
  apply (honeycomb_slot_splits_back "a ,b,, c "). reflexivity.
Defined.

(** X5.  White space alone, typed into the honeycomb field, is stored as
    the array of one empty entry: the field then shows nothing and the
    Nuremberg slot is empty, yet the backend's count takes the axis as
    filled. *)
Theorem honeycomb_blank_text (text : string) (coordinate : CoordinateState)
  (Htext : is_empty text = false)
  (Hcomma : contains_char comma text = false)
  (Hblank : trim text = "") :
  change_honeycomb text coordinate K_honeycomb = Some (VArray [""])
  /\ honeycomb_value (change_honeycomb text coordinate) = ""
  /\ nuremberg_slot (change_honeycomb text coordinate K_honeycomb) = ""
  /\ is_filled (change_honeycomb text coordinate K_honeycomb) = true.
Proof.
  assert (E : honeycomb_entries text = [""]).
  { unfold honeycomb_entries. rewrite Htext, (split_on_absent _ _ Hcomma).
    cbn [map]. now rewrite Hblank. }
  unfold honeycomb_value, change_honeycomb, updateCoordinate.
  rewrite AxisKey_eqb_refl. cbn [stored_value]. rewrite E.
  repeat split; reflexivity.
Qed.

Lemma honeycomb_blank_text_witness :
  change_honeycomb "  " initial_coordinate_state K_honeycomb
  = Some (VArray [""])
  /\ is_filled (change_honeycomb "  " initial_coordinate_state K_honeycomb)
     = true.
Proof.
  refine (let H := honeycomb_blank_text "  " initial_coordinate_state
                     eq_refl eq_refl eq_refl in
          conj (proj1 H) (proj2 (proj2 (proj2 H)))).
Defined.

(** ** The persona list *)

Lemma includes_In (l : list string) (x : string) :
  includes l x = true <-> In x l.
Proof.
  unfold includes. rewrite existsb_exists. split.
  - intros (y & Hin & E). apply String.eqb_eq in E. now subst.
  - intros H. exists x. split; [exact H|apply String.eqb_refl].
Qed.

Lemma includes_not_In (l : list string) (x : string) :
  includes l x = false <-> ~ In x l.
Proof.
  rewrite <- includes_In. destruct (includes l x); split; intros H;
    try reflexivity; try discriminate.
  - now elim H.
Qed.

Lemma NoDup_snoc (l : list string) (x : string) :
  NoDup l -> ~ In x l -> NoDup (l ++ [x]).
Proof.
  intros Hl Hx. induction Hl as [|y l Hy Hl IH]; simpl.
  - constructor; [easy|constructor].
  - constructor.
    + rewrite in_app_iff. intros [H|[H|[]]]; [easy|].
      subst. apply Hx. now left.
    + apply IH. intros H. apply Hx. now right.
Qed.

Lemma NoDup_filter_string (f : string -> bool) (l : list string) :
  NoDup l -> NoDup (filter f l).
Proof.
  induction 1 as [|x l Hx Hl IH]; simpl; [constructor|].
  destruct (f x); [|exact IH].
  constructor; [|exact IH]. rewrite filter_In. now intros [H _].
Qed.

Lemma predefinedRoles_proper : Forall proper_role predefinedRoles.
Proof.
  repeat constructor; try discriminate; vm_compute; reflexivity.
Qed.

Lemma initial_roles_proper : Forall proper_role (targetRoles initial_roles).
Proof.
  repeat constructor; try discriminate; vm_compute; reflexivity.
Qed.

Lemma role_step_invariant (st st' : RoleState) :
  role_step st st' ->
  NoDup (targetRoles st) /\ Forall proper_role (targetRoles st) ->
  NoDup (targetRoles st') /\ Forall proper_role (targetRoles st').
Proof.
  intros Hstep [Hnd Hp]. destruct Hstep as [text st|st|role st Hin|role st Hin].
  - now split.
  - unfold addRole.
    destruct (negb (is_empty (trim (roleInput st)))) eqn:Ee; [|now split].
    destruct (includes (targetRoles st) (trim (roleInput st))) eqn:Ei;
      [now split|].
    cbn [andb negb targetRoles]. split.
    + apply NoDup_snoc; [exact Hnd|now apply includes_not_In].
    + apply Forall_app. split; [exact Hp|]. constructor; [|constructor].
      split; [|apply trim_idempotent].
      intros E. rewrite E in Ee. discriminate Ee.
  - cbn [removeRole targetRoles]. split.
    + now apply NoDup_filter_string.
    + rewrite Forall_forall in *. intros r Hr. apply Hp.
      now apply filter_In in Hr as [Hr _].
  - cbn [quickAdd targetRoles]. unfold quick_add_offered in Hin.
    apply filter_In in Hin as [Hpre Hnot]. apply negb_true_iff in Hnot.
    split.
    + apply NoDup_snoc; [exact Hnd|now apply includes_not_In].
    + apply Forall_app. split; [exact Hp|]. constructor; [|constructor].
      pose proof predefinedRoles_proper as H. rewrite Forall_forall in H.
      now apply H.
Qed.

(** X6.  Whatever is typed, added, removed or quick-added, the persona
    list never holds a role twice, never holds an empty role, and never a
    role with outer white space. *)
Theorem targetRoles_invariant (st : RoleState)
  (Hreach : role_reachable st) :
  NoDup (targetRoles st)
  /\ Forall (fun r => r <> "" /\ trim r = r) (targetRoles st).
Proof.
  induction Hreach as [|st st' _ IH Hstep].
  - split; [|exact initial_roles_proper].
    repeat constructor; simpl; intuition discriminate.
  - exact (role_step_invariant st st' Hstep IH).
Qed.

Lemma targetRoles_invariant_witness :
  NoDup ["Data Scientist"; "Healthcare Expert"; "Nurse"]
  /\ Forall (fun r => r <> "" /\ trim r = r)
       ["Data Scientist"; "Healthcare Expert"; "Nurse"].
Proof.
  exact (targetRoles_invariant
           (addRole (setRoleInput "  Nurse " initial_roles))
           (reach_step _ _
              (reach_step _ _ reach_initial
                 (step_type "  Nurse " initial_roles))
              (step_add (setRoleInput "  Nurse " initial_roles)))).
Defined.

Lemma filter_not_In (x : string) (l : list string) :
  ~ In x l -> filter (fun r => negb (String.eqb r x)) l = l.
Proof.
  induction l as [|y l IH]; simpl; [reflexivity|].
  intros H. destruct (String.eqb y x) eqn:E.
  - apply String.eqb_eq in E. elim H. now left.
  - simpl. f_equal. apply IH. intros Hin. apply H. now right.
Qed.

(** X7.  Adding a role and removing it again restores the list: when the
    trimmed input is not empty and not yet listed, [addRole] appends it at
    the end, and [removeRole] of it gives back the list as it was;
    [removeRole] leaves no occurrence of the role behind. *)
Theorem removeRole_addRole (st : RoleState)
  (Hrole : is_empty (trim (roleInput st)) = false)
  (Hnew : includes (targetRoles st) (trim (roleInput st)) = false) :
  targetRoles (addRole st) = targetRoles st ++ [trim (roleInput st)]
  /\ roleInput (addRole st) = ""
  /\ targetRoles (removeRole (trim (roleInput st)) (addRole st))
     = targetRoles st
  /\ forall role : string,
       includes (targetRoles (removeRole role st)) role = false.
Proof.
  unfold addRole. rewrite Hrole, Hnew. cbn [negb andb targetRoles roleInput].
  split; [reflexivity|]. split; [reflexivity|]. split.
  - cbn [removeRole targetRoles]. rewrite filter_app. cbn [filter].
    rewrite String.eqb_refl. cbn [negb]. rewrite app_nil_r.
    apply filter_not_In. now apply includes_not_In.
  - intros role. apply includes_not_In. cbn [removeRole targetRoles].
    rewrite filter_In. intros [_ H]. now rewrite String.eqb_refl in H.
Qed.

Lemma removeRole_addRole_witness :
  targetRoles (removeRole "Nurse" (addRole (setRoleInput "  Nurse " initial_roles)))
  = ["Data Scientist"; "Healthcare Expert"].
Proof.
  refine (let H := removeRole_addRole (setRoleInput "  Nurse " initial_roles)
                     eq_refl eq_refl in
          proj1 (proj2 (proj2 H))).
Defined.

(** ** The theme switch *)

(** X8.  The theme chosen with the switch survives a reload: mounting on
    the storage a toggle has written gives the toggled theme whatever the
    system prefers; two toggles cancel; the [dark] class of the document
    always follows [isDark]; and on mount a saved [dark] wins, any other
    saved text that is not empty means light, and without one the system
    preference decides. *)
Theorem theme_survives_reload (st : ThemeState) (saved : option string)
  (systemTheme : bool) :
  isDark (mount_theme (savedTheme (toggleTheme st)) systemTheme)
  = isDark (toggleTheme st)
  /\ isDark (toggleTheme (toggleTheme st)) = isDark st
  /\ savedTheme (toggleTheme (toggleTheme (toggleTheme st)))
     = savedTheme (toggleTheme st)
  /\ dark_class (toggleTheme st) = isDark (toggleTheme st)
  /\ dark_class (mount_theme saved systemTheme)
     = isDark (mount_theme saved systemTheme)
  /\ isDark (mount_theme saved systemTheme)
     = match given saved with
       | Some s => String.eqb s "dark"
       | None => systemTheme
       end.
Proof.
  repeat split.
  - destruct st as [[|] s c], systemTheme; reflexivity.
  - destruct st as [[|] s c]; reflexivity.
  - destruct st as [[|] s c]; reflexivity.
  - destruct saved as [[|a s]|]; try reflexivity.
    unfold mount_theme, shouldBeDark, given. cbn [isDark not_set is_empty].
    apply orb_false_r.
Qed.

(** ** The API client *)

Lemma obj_get_app {V : Type} (name : string) (a b : JsObject V) :
  obj_get name (a ++ b)
  = match obj_get name b with
    | Some v => Some v
    | None => obj_get name a
    end.
Proof.
  induction a as [|[k v] a IH]; simpl.
  - now destruct (obj_get name b).
  - rewrite IH. destruct (obj_get name b); [reflexivity|].
    reflexivity.
Qed.

(** X9.  [apiRequest] builds a [headers] object with the JSON content
    type and the caller's headers, then spreads the caller's options over
    it: when the options have headers of their own, [fetch] gets exactly
    those and the content type is lost unless they name it; without them
    it gets the content type alone.  So [retrieveSecureData] sends only
    its access-level header, and [validateCoordinate] the JSON content
    type. *)
Theorem apiRequest_headers (options : RequestInit) :
  obj_get "headers" (fetch_init options)
  = match obj_get "headers" options with
    | Some own => Some own
    | None => Some (InitHeaders [("Content-Type", "application/json")])
    end
  /\ (forall (recordId : string) (level : option AccessLevel),
        headers_sent (snd (retrieveSecureData recordId level))
        = [("X-Required-Access-Level",
            AccessLevel_value
              match level with Some a => a | None => PUBLIC end)]
        /\ obj_get "Content-Type"
             (headers_sent (snd (retrieveSecureData recordId level)))
           = None)
  /\ (forall body : string,
        obj_get "Content-Type" (headers_sent (snd (validateCoordinate body)))
        = Some "application/json").
Proof.
  split.
  - unfold fetch_init, obj_spread. rewrite obj_get_app.
    destruct (obj_get "headers" options) as [own|] eqn:E; [reflexivity|].
    unfold headers_of. rewrite E. reflexivity.
  - split; [|reflexivity]. intros recordId level. split; reflexivity.
Qed.

(** *** Percent encoding *)

Lemma count_char_all_chars (p : ascii -> bool) (c : ascii) (s : string) :
  p c = false -> all_chars p s = true -> count_char c s = 0.
Proof.
  intros Hc. induction s as [|a s IH]; simpl; [reflexivity|].
  intros H. apply andb_true_iff in H as [Ha Hs]. rewrite (IH Hs).
  destruct (Ascii.eqb a c) eqn:E; [|reflexivity].
  apply Ascii.eqb_eq in E. subst. congruence.
Qed.

(** The three characters of [%XX] are a percent sign and two digits. *)
Lemma percent_byte_chars (c : ascii) :
  all_chars (fun x => is_alnum x || Ascii.eqb x "%") (percent_byte c) = true.
Proof. destruct c as [[|] [|] [|] [|] [|] [|] [|] [|]]; reflexivity. Qed.

Lemma encodeURIComponent_chars (s : string) :
  all_chars (fun x => uri_unreserved x || Ascii.eqb x "%")
    (encodeURIComponent s) = true.
Proof.
  induction s as [|c s IH]; [reflexivity|].
  cbn [encodeURIComponent]. rewrite all_chars_app, IH, andb_true_r.
  destruct (uri_unreserved c) eqn:E.
  - simpl. now rewrite E.
  - pose proof (percent_byte_chars c) as H. revert H.
    generalize (percent_byte c). intros t. induction t as [|x t IHt];
      [reflexivity|].
    simpl. intros H. apply andb_true_iff in H as [Hx Ht].
    rewrite (IHt Ht), andb_true_r. unfold uri_unreserved.
    apply orb_true_iff in Hx as [Hx|Hx]; rewrite Hx; simpl;
      [reflexivity|apply orb_true_r].
Qed.

Lemma form_encode_chars (s : string) :
  all_chars (fun x => form_unreserved x || Ascii.eqb x "%" || Ascii.eqb x "+")
    (form_encode s) = true.
Proof.
  induction s as [|c s IH]; [reflexivity|].
  cbn [form_encode]. rewrite all_chars_app, IH, andb_true_r.
  destruct (form_unreserved c) eqn:E.
  - simpl. now rewrite E.
  - destruct (Ascii.eqb c " "); [reflexivity|].
    pose proof (percent_byte_chars c) as H. revert H.
    generalize (percent_byte c). intros t. induction t as [|x t IHt];
      [reflexivity|].
    simpl. intros H. apply andb_true_iff in H as [Hx Ht].
    rewrite (IHt Ht), andb_true_r. unfold form_unreserved.
    apply orb_true_iff in Hx as [Hx|Hx]; rewrite Hx; simpl;
      [reflexivity|now rewrite orb_true_r].
Qed.

(** An encoded byte reads back. *)
Lemma percent_decode_byte (plus : bool) (c : ascii) (rest : string) :
  percent_decode plus (percent_byte c ++ rest)
  = String c (percent_decode plus rest).
Proof.
  destruct c as [[|] [|] [|] [|] [|] [|] [|] [|]]; reflexivity.
Qed.

Lemma percent_decode_plain (plus : bool) (c : ascii) (rest : string) :
  Ascii.eqb c "%" = false ->
  percent_decode plus (String c rest)
  = String (if plus && Ascii.eqb c "+" then " "%char else c)
      (percent_decode plus rest).
Proof.
  intros H. destruct c as [[|] [|] [|] [|] [|] [|] [|] [|]];
    try discriminate H; reflexivity.
Qed.

Lemma percent_decode_encodeURIComponent (s : string) :
  percent_decode false (encodeURIComponent s) = s.
Proof.
  induction s as [|c s IH]; [reflexivity|].
  cbn [encodeURIComponent]. destruct (uri_unreserved c) eqn:E.
  - cbn [append]. rewrite percent_decode_plain, IH; [reflexivity|].
    destruct c as [[|] [|] [|] [|] [|] [|] [|] [|]];
      try reflexivity; discriminate E.
  - now rewrite percent_decode_byte, IH.
Qed.

Lemma percent_decode_form_encode (s : string) :
  percent_decode true (form_encode s) = s.
Proof.
  induction s as [|c s IH]; [reflexivity|].
  cbn [form_encode]. destruct (form_unreserved c) eqn:E.
  - cbn [append]. rewrite percent_decode_plain, IH.
    + destruct c as [[|] [|] [|] [|] [|] [|] [|] [|]];
        try reflexivity; discriminate E.
    + destruct c as [[|] [|] [|] [|] [|] [|] [|] [|]];
        try reflexivity; discriminate E.
  - destruct (Ascii.eqb c " ") eqn:Es.
    + apply Ascii.eqb_eq in Es. subst c. cbn [append].
      rewrite percent_decode_plain by reflexivity. now rewrite IH.
    + now rewrite percent_decode_byte, IH.
Qed.

(** *** From code units to octets and back *)

Ltac div_lia := zify; Z.to_euclidean_division_equations; lia.

Lemma utf8_decode_1 (b0 : ascii) (r : string) :
  (N_of_ascii b0 < 128)%N ->
  utf8_decode (String b0 r) = N_of_ascii b0 :: utf8_decode r.
Proof.
  intros H. cbn [utf8_decode]. apply N.ltb_lt in H. now rewrite H.
Qed.

Lemma utf8_decode_2 (b0 b1 : ascii) (r : string) :
  (128 <= N_of_ascii b0 < 224)%N ->
  utf8_decode (String b0 (String b1 r))
  = ((N_of_ascii b0 - 192) * 64 + (N_of_ascii b1 - 128))%N :: utf8_decode r.
Proof.
  intros [H1 H2].
  change (utf8_decode (String b0 (String b1 r)))
    with (if (N_of_ascii b0 <? 128)%N
          then N_of_ascii b0 :: utf8_decode (String b1 r)
          else if (N_of_ascii b0 <? 224)%N
               then ((N_of_ascii b0 - 192) * 64 + (N_of_ascii b1 - 128))%N
                    :: utf8_decode r
               else match r with
                    | String b2 r2 =>
                        if (N_of_ascii b0 <? 240)%N
                        then ((N_of_ascii b0 - 224) * 4096
                              + (N_of_ascii b1 - 128) * 64
                              + (N_of_ascii b2 - 128))%N :: utf8_decode r2
                        else match r2 with
                             | String b3 r3 =>
                                 ((N_of_ascii b0 - 240) * 262144
                                  + (N_of_ascii b1 - 128) * 4096
                                  + (N_of_ascii b2 - 128) * 64
                                  + (N_of_ascii b3 - 128))%N :: utf8_decode r3
                             | EmptyString => []
                             end
                    | EmptyString => []
                    end).
  apply N.ltb_ge in H1. apply N.ltb_lt in H2. now rewrite H1, H2.
Qed.

Lemma utf8_decode_3 (b0 b1 b2 : ascii) (r : string) :
  (224 <= N_of_ascii b0 < 240)%N ->
  utf8_decode (String b0 (String b1 (String b2 r)))
  = ((N_of_ascii b0 - 224) * 4096 + (N_of_ascii b1 - 128) * 64
     + (N_of_ascii b2 - 128))%N :: utf8_decode r.
Proof.
  intros [H1 H2].
  change (utf8_decode (String b0 (String b1 (String b2 r))))
    with (if (N_of_ascii b0 <? 128)%N
          then N_of_ascii b0 :: utf8_decode (String b1 (String b2 r))
          else if (N_of_ascii b0 <? 224)%N
               then ((N_of_ascii b0 - 192) * 64 + (N_of_ascii b1 - 128))%N
                    :: utf8_decode (String b2 r)
               else if (N_of_ascii b0 <? 240)%N
                    then ((N_of_ascii b0 - 224) * 4096
                          + (N_of_ascii b1 - 128) * 64
                          + (N_of_ascii b2 - 128))%N :: utf8_decode r
                    else match r with
                         | String b3 r3 =>
                             ((N_of_ascii b0 - 240) * 262144
                              + (N_of_ascii b1 - 128) * 4096
                              + (N_of_ascii b2 - 128) * 64
                              + (N_of_ascii b3 - 128))%N :: utf8_decode r3
                         | EmptyString => []
                         end).
  assert (E1 : (N_of_ascii b0 <? 128)%N = false) by (apply N.ltb_ge; lia).
  assert (E2 : (N_of_ascii b0 <? 224)%N = false) by (apply N.ltb_ge; lia).
  apply N.ltb_lt in H2. now rewrite E1, E2, H2.
Qed.

Lemma utf8_decode_4 (b0 b1 b2 b3 : ascii) (r : string) :
  (240 <= N_of_ascii b0)%N ->
  utf8_decode (String b0 (String b1 (String b2 (String b3 r))))
  = ((N_of_ascii b0 - 240) * 262144 + (N_of_ascii b1 - 128) * 4096
     + (N_of_ascii b2 - 128) * 64 + (N_of_ascii b3 - 128))%N :: utf8_decode r.
Proof.
  intros H1.
  change (utf8_decode (String b0 (String b1 (String b2 (String b3 r)))))
    with (if (N_of_ascii b0 <? 128)%N
          then N_of_ascii b0 :: utf8_decode (String b1 (String b2 (String b3 r)))
          else if (N_of_ascii b0 <? 224)%N
               then ((N_of_ascii b0 - 192) * 64 + (N_of_ascii b1 - 128))%N
                    :: utf8_decode (String b2 (String b3 r))
               else if (N_of_ascii b0 <? 240)%N
                    then ((N_of_ascii b0 - 224) * 4096
                          + (N_of_ascii b1 - 128) * 64
                          + (N_of_ascii b2 - 128))%N :: utf8_decode (String b3 r)
                    else ((N_of_ascii b0 - 240) * 262144
                          + (N_of_ascii b1 - 128) * 4096
                          + (N_of_ascii b2 - 128) * 64
                          + (N_of_ascii b3 - 128))%N :: utf8_decode r).
  assert (E1 : (N_of_ascii b0 <? 128)%N = false) by (apply N.ltb_ge; lia).
  assert (E2 : (N_of_ascii b0 <? 224)%N = false) by (apply N.ltb_ge; lia).
  assert (E3 : (N_of_ascii b0 <? 240)%N = false) by (apply N.ltb_ge; lia).
  now rewrite E1, E2, E3.
Qed.

Lemma utf8_decode_encode (cp : N) (rest : string) :
  (cp < 1114112)%N ->
  utf8_decode (utf8_encode cp ++ rest) = cp :: utf8_decode rest.
Proof.
  intros Hcp. unfold utf8_encode.
  destruct (N.ltb_spec cp 128); [|destruct (N.ltb_spec cp 2048);
    [|destruct (N.ltb_spec cp 65536)]]; cbn [append].
  - rewrite utf8_decode_1; rewrite N_ascii_embedding; try lia. reflexivity.
  - rewrite utf8_decode_2; rewrite !N_ascii_embedding; try div_lia.
    f_equal. div_lia.
  - rewrite utf8_decode_3; rewrite !N_ascii_embedding; try div_lia.
    f_equal. div_lia.
  - rewrite utf8_decode_4; rewrite !N_ascii_embedding; try div_lia.
    f_equal. div_lia.
Qed.

Lemma utf8_decode_string (cps : list N) :
  Forall (fun cp => (cp < 1114112)%N) cps ->
  utf8_decode (utf8_string cps) = cps.
Proof.
  induction 1 as [|cp cps Hcp _ IH]; [reflexivity|].
  cbn [utf8_string]. now rewrite utf8_decode_encode, IH.
Qed.

Lemma code_points_inverse (n : nat) (s : JsString) :
  List.length s <= n ->
  forallb code_unit s = true ->
  isWellFormed s = true ->
  flat_map code_units_of (toUSVString s) = s
  /\ Forall (fun cp => (cp < 1114112)%N) (toUSVString s).
Proof.
  revert s. induction n as [|n IH]; intros s Hlen Hunits Hwf.
  - destruct s; [split; [reflexivity|constructor]|simpl in Hlen; lia].
  - destruct s as [|u rest]; [split; [reflexivity|constructor]|].
    cbn [List.length forallb] in Hlen, Hunits.
    apply andb_true_iff in Hunits as [Hu Hrest].
    unfold isWellFormed, toUSVString in *. cbn [code_points] in *.
    unfold code_unit in Hu. apply N.ltb_lt in Hu.
    destruct (is_lead u) eqn:Hlead.
    + destruct rest as [|t rest']; [discriminate Hwf|].
      destruct (is_trail t) eqn:Htrail; [|discriminate Hwf].
      cbn [forallb is_some andb map flat_map] in *.
      cbn [forallb] in Hrest. apply andb_true_iff in Hrest as [Ht Hrest'].
      unfold code_unit in Ht. apply N.ltb_lt in Ht.
      destruct (IH rest') as [E F]; [simpl in Hlen; lia|assumption|assumption|].
      unfold is_lead in Hlead. unfold is_trail in Htrail.
      apply andb_true_iff in Hlead as [L1 L2].
      apply andb_true_iff in Htrail as [T1 T2].
      apply N.leb_le in L1, L2, T1, T2.
      split.
      * rewrite E. unfold code_units_of.
        destruct (N.ltb_spec (65536 + (u - 55296) * 1024 + (t - 56320)) 65536);
          [lia|].
        cbn [app]. f_equal; [div_lia|]. f_equal. div_lia.
      * constructor; [lia|exact F].
    + destruct (is_trail u) eqn:Htrail; [discriminate Hwf|].
      cbn [forallb is_some andb map flat_map] in *.
      destruct (IH rest) as [E F]; [lia|assumption|assumption|].
      split.
      * rewrite E. unfold code_units_of.
        apply N.ltb_lt in Hu. now rewrite Hu.
      * constructor; [lia|exact F].
Qed.

Lemma toUSVString_injective (a b : JsString) :
  forallb code_unit a = true -> forallb code_unit b = true ->
  isWellFormed a = true -> isWellFormed b = true ->
  utf8_string (toUSVString a) = utf8_string (toUSVString b) ->
  a = b.
Proof.
  intros Ua Ub Wa Wb H.
  destruct (code_points_inverse _ a (le_n _) Ua Wa) as [Ea Fa].
  destruct (code_points_inverse _ b (le_n _) Ub Wb) as [Eb Fb].
  rewrite <- Ea, <- Eb. f_equal.
  rewrite <- (utf8_decode_string _ Fa), <- (utf8_decode_string _ Fb).
  now rewrite H.
Qed.

(** X10.  On JavaScript strings, [encodeURIComponent] loses nothing where
    it returns: two strings with the same encoding are the same string; on
    an unpaired surrogate it throws.  The serializer of [URLSearchParams]
    loses nothing on well-formed strings, so distinct well-formed contents
    and queries give distinct request paths; it replaces an unpaired
    surrogate by U+FFFD, so the lone surrogate U+D800 and U+FFFD are
    serialized alike. *)
Theorem encoding_injective (a b : JsString)
  (Ha : forallb code_unit a = true) (Hb : forallb code_unit b = true) :
  (forall x : string, Encode a = Some x -> Encode b = Some x -> a = b)
  /\ (isWellFormed a = true -> isWellFormed b = true ->
      serialize_value a = serialize_value b -> a = b)
  /\ (isWellFormed a = false -> Encode a = None)
  /\ serialize_value [55296%N] = serialize_value [65533%N].
Proof.
  split; [|split; [|split]].
  - unfold Encode. intros x H1 H2.
    destruct (isWellFormed a) eqn:Wa; [|discriminate].
    destruct (isWellFormed b) eqn:Wb; [|discriminate].
    apply (toUSVString_injective a b Ha Hb Wa Wb).
    rewrite <- (percent_decode_encodeURIComponent (utf8_string (toUSVString a))),
      <- (percent_decode_encodeURIComponent (utf8_string (toUSVString b))).
    congruence.
  - unfold serialize_value. intros Wa Wb H.
    apply (toUSVString_injective a b Ha Hb Wa Wb).
    rewrite <- (percent_decode_form_encode (utf8_string (toUSVString a))),
      <- (percent_decode_form_encode (utf8_string (toUSVString b))).
    now rewrite H.
  - unfold Encode. now intros ->.
  - reflexivity.
Qed.

Lemma encoding_injective_witness :
  Encode [55296%N; 65%N] = None
  /\ ([65%N; 55357%N; 56832%N] = [65%N; 55357%N; 56832%N] :> JsString).
Proof.
  pose (H := encoding_injective [55296%N; 65%N] [] eq_refl eq_refl).
  pose (K := encoding_injective [65%N; 55357%N; 56832%N]
               [65%N; 55357%N; 56832%N] eq_refl eq_refl).
  exact (conj (proj1 (proj2 (proj2 H)) eq_refl)
              (proj1 K "A%F0%9F%98%80" eq_refl eq_refl)).
Defined.

(** The encodings of a text with an accent, a currency sign and a
    character beyond the basic plane. *)
Example Encode_examples :
  Encode [65%N; 32%N; 233%N; 8364%N; 55357%N; 56832%N]
  = Some "A%20%C3%A9%E2%82%AC%F0%9F%98%80"
  /\ serialize_value [65%N; 32%N; 233%N; 8364%N; 55357%N; 56832%N; 42%N; 126%N]
     = "A+%C3%A9%E2%82%AC%F0%9F%98%80*%7E"
  /\ serialize_value [55296%N] = "%EF%BF%BD".
Proof. repeat split. Qed.

(** X11.  The role of [generateSampleCoordinate] cannot leave its
    parameter: the path has one [?] and one [=] when a role is given and
    none otherwise, and never a [&], a [#] or a space, whatever the role
    holds. *)
Theorem generateSampleCoordinate_path (role : option string) :
  let path := fst (generateSampleCoordinate role) in
  let n := match given role with Some _ => 1 | None => 0 end in
  count_char "?" path = n
  /\ count_char "=" path = n
  /\ count_char "&" path = 0
  /\ count_char "#" path = 0
  /\ count_char " " path = 0
  /\ count_char "/" path = 2.
Proof.
  cbv zeta. unfold generateSampleCoordinate. cbn [fst].
  assert (H : forall c r,
            (uri_unreserved c || Ascii.eqb c "%") = false ->
            count_char c (encodeURIComponent r) = 0).
  { intros c r Hc.
    exact (count_char_all_chars _ c _ Hc (encodeURIComponent_chars r)). }
  destruct (given role) as [r|].
  - rewrite !count_char_app, !H by reflexivity. repeat split.
  - repeat split.
Qed.

(** X12.  The calls that build their query with [URLSearchParams] keep
    each value inside its parameter: the paths of [aiExtractKnowledge] and
    [aiGenerateReasoningChain] have exactly one [?], one [&] and two [=],
    and no [#] or space, whatever the content, the type, the query and the
    strategy hold. *)
Theorem URLSearchParams_paths (first : string) (second : option string) :
  let shape (path : string) :=
    count_char "?" path = 1 /\ count_char "&" path = 1
    /\ count_char "=" path = 2 /\ count_char "#" path = 0
    /\ count_char " " path = 0 in
  shape (fst (aiExtractKnowledge first second))
  /\ shape (fst (aiGenerateReasoningChain first second)).
Proof.
  cbv zeta.
  assert (H : forall c r,
            (form_unreserved c || Ascii.eqb c "%" || Ascii.eqb c "+") = false ->
            count_char c (form_encode r) = 0).
  { intros c r Hc.
    exact (count_char_all_chars _ c _ Hc (form_encode_chars r)). }
  unfold aiExtractKnowledge, aiGenerateReasoningChain,
    URLSearchParams_toString.
  cbn [fst snd map join String.concat].
  rewrite !count_char_app, !H by reflexivity.
  repeat split.
Qed.

(** *** Failed requests *)

Lemma prefix_nil (s : string) : prefix "" s = true.
Proof. destruct s; reflexivity. Qed.

Lemma prefix_app (t q : string) : prefix t (t ++ q) = true.
Proof.
  induction t as [|a t IH]; [apply prefix_nil|].
  simpl. destruct (ascii_dec a a) as [_|N]; [exact IH|now elim N].
Qed.

Lemma has_substring_prefix (t s : string) :
  prefix t s = true -> has_substring t s = true.
Proof. intros H. destruct s; cbn [has_substring]; now rewrite H. Qed.

Lemma has_substring_app (p t q : string) :
  has_substring t (p ++ t ++ q) = true.
Proof.
  induction p as [|a p IH].
  - change ("" ++ t ++ q)%string with (t ++ q)%string.
    apply has_substring_prefix, prefix_app.
  - cbn [append has_substring]. rewrite IH. apply orb_true_r.
Qed.

Section HandleValidateProperties.

Variable NEXT_PUBLIC_API_URL : option string.
Variable fetch :
  string -> RequestInit -> result Thrown (Response ValidationReport).
Variable stringify : CoordinateState -> string.

(** Whatever the network does, [handleValidate] ends with a report on
    the panel and with [loading] off. *)
Lemma handleValidate_settles (coordinate : CoordinateState) (st : PanelState) :
  loading (handleValidate NEXT_PUBLIC_API_URL fetch stringify coordinate st)
  = false
  /\ validationResult
       (handleValidate NEXT_PUBLIC_API_URL fetch stringify coordinate st)
     <> None.
Proof.
  unfold handleValidate. cbn [validateCoordinate].
  destruct (apiRequest _ _ _ _ _); split; try reflexivity; discriminate.
Qed.

(** X13.  A response that is not OK never reaches the panel as a
    report of the server: [apiRequest] throws an [ApiError] carrying the
    status, and [handleValidate] shows [{valid: false}] with that one
    error, whose message holds the status code, the status text and the
    text of the response; the request went to [/axis/validate] under the
    base URL, as a POST with the JSON content type and the coordinate as
    body; and [loading] is off again. *)
Theorem handleValidate_failed_response (coordinate : CoordinateState)
  (st : PanelState) (response : Response ValidationReport)
  (Hfetch :
     fetch (API_BASE_URL NEXT_PUBLIC_API_URL ++ "/axis/validate")%string
       [("headers", InitHeaders [("Content-Type", "application/json")]);
        ("method", InitText "POST");
        ("body", InitText (stringify coordinate))]
     = Ok response)
  (Hbad : ok response = false) :
  let after :=
    handleValidate NEXT_PUBLIC_API_URL fetch stringify coordinate st in
  apiRequest NEXT_PUBLIC_API_URL ValidationReport fetch "/axis/validate"
    (snd (validateCoordinate (stringify coordinate)))
  = Raise (ThrowError (ApiError response))
  /\ err_status (ApiError response) = Some (status response)
  /\ validationResult after
     = Some {| valid := false;
               errors := Some [err_message (ApiError response)] |}
  /\ has_substring (text response) (err_message (ApiError response)) = true
  /\ has_substring (statusText response) (err_message (ApiError response))
     = true
  /\ has_substring (Number_toString (Z.of_N (status response)))
       (err_message (ApiError response)) = true
  /\ loading after = false.
Proof.
  cbv zeta.
  assert (E : apiRequest NEXT_PUBLIC_API_URL ValidationReport fetch
                "/axis/validate"
                (snd (validateCoordinate (stringify coordinate)))
              = Raise (ThrowError (ApiError response))).
  { unfold apiRequest. cbn [validateCoordinate snd fetch_init obj_spread
      headers_of obj_get app String.eqb Ascii.eqb Bool.eqb].
    rewrite Hfetch, Hbad. reflexivity. }
  split; [exact E|]. split; [reflexivity|].
  unfold handleValidate, validateCoordinate in *. cbn [snd] in E.
  rewrite E. split; [reflexivity|].
  unfold ApiError. cbn [err_message].
  set (n := Number_toString (Z.of_N (status response))).
  split; [|split; [|split; [|reflexivity]]].
  - replace ("API request failed: " ++ n ++ " " ++ statusText response
             ++ line_feed ++ text response)%string
      with (("API request failed: " ++ n ++ " " ++ statusText response
             ++ line_feed) ++ text response ++ "")%string.
    + apply has_substring_app.
    + now rewrite append_nil_r, !append_assoc.
  - replace ("API request failed: " ++ n ++ " " ++ statusText response
             ++ line_feed ++ text response)%string
      with (("API request failed: " ++ n ++ " ") ++ statusText response
            ++ (line_feed ++ text response))%string.
    + apply has_substring_app.
    + now rewrite !append_assoc.
  - apply (has_substring_app "API request failed: ").
Qed.

End HandleValidateProperties.

Lemma handleValidate_failed_response_witness :
  validationResult
    (handleValidate None (fun _ _ => Ok unprocessable) (fun _ => "{}")
       initial_coordinate_state
       {| validationResult := None; loading := false |})
  = Some {| valid := false;
            errors := Some [err_message (ApiError unprocessable)] |}
  /\ has_substring "Temporal must be valid ISO 8601 format"
       (err_message (ApiError unprocessable)) = true.
Proof.
  refine (let H := handleValidate_failed_response None
                     (fun _ _ => Ok unprocessable) (fun _ => "{}")
                     initial_coordinate_state
                     {| validationResult := None; loading := false |}
                     unprocessable eq_refl eq_refl in
          conj (proj1 (proj2 (proj2 H)))
               (proj1 (proj2 (proj2 (proj2 H))))).
Defined.

(** ** The two encoders, the hashes and the count *)

(** X14.  On a coordinate whose sector is a string or a safe integer,
    the backend's [nuremberg_number] and the frontend's
    [coordinateToNuremberg] give the same string, so the backend's
    [coordinate_hash] is the SHA-256 digest of the string the coordinate
    builder shows.  Past the safe integers the two part: at the sector
    [10 ^ 21] the backend writes the numeral and the frontend [1e+21]. *)
Theorem encoders_agree (coord : AxisCoordinate)
  (Hsector : safe_sector (sector coord) = true) :
  nuremberg_number coord = coordinateToNuremberg coord
  /\ coordinate_hash coord = SHA256.hexdigest (coordinateToNuremberg coord)
  /\ coordinate_hash coord = SHA256.hexdigest (nurembergString (coord_get coord))
  /\ nuremberg_number (set_sector (SectorNum (10 ^ 21)) coord)
     <> coordinateToNuremberg (set_sector (SectorNum (10 ^ 21)) coord).
Proof.
  assert (E : nuremberg_number coord = coordinateToNuremberg coord).
  { unfold nuremberg_number, coordinateToNuremberg, as_list.
    rewrite map_map. f_equal. apply map_ext. intros k.
    symmetry. apply nuremberg_slot_text.
    destruct k; cbn [coord_get]; try exact I;
      try (match goal with
           | |- context [option_map _ ?o] => destruct o; exact I
           end).
    destruct (sector coord); [exact I|exact Hsector]. }
  unfold coordinate_hash. rewrite E.
  split; [reflexivity|]. split; [reflexivity|]. split; [reflexivity|].
  rewrite coordinateToNuremberg_slots.
  unfold nuremberg_number, as_list.
  cbn [map AXIS_KEYS coord_get slots_of set_sector sector pillar sector_text
       sector_value axis_text].
  intros H. apply join_pipe_second in H.
  exact (numeral_not_exponent_form _ _ _ _ H).
Qed.

Lemma encoders_agree_witness :
  nuremberg_number example_numeric_sector
  = coordinateToNuremberg example_numeric_sector.
Proof.
  exact (proj1 (encoders_agree example_numeric_sector eq_refl)).
Defined.

(** X15.  On coordinates in normal form (sector a string, optional axes
    absent or not empty, honeycomb absent or not rendering as the empty
    slot) without [|] or [,] in a field, [coordinateToNuremberg] is
    injective: two of them with the same Nuremberg string are the same
    coordinate. *)
Theorem coordinateToNuremberg_injective (c1 c2 : AxisCoordinate)
  (Hfree1 : delimiter_free c1 = true) (Hnormal1 : normal_form c1 = true)
  (Hfree2 : delimiter_free c2 = true) (Hnormal2 : normal_form c2 = true)
  (Hsame : coordinateToNuremberg c1 = coordinateToNuremberg c2) :
  c1 = c2.
Proof.
  pose proof (decode_encode c1 Hfree1 Hnormal1) as H1.
  pose proof (decode_encode c2 Hfree2 Hnormal2) as H2.
  rewrite Hsame, H2 in H1. now injection H1.
Qed.

Lemma coordinateToNuremberg_injective_witness :
  example_full
  = set_temporal (Some "2024-06-04T12:00:00Z")
      (set_sector (SectorStr "541511") example_full).
Proof.
  apply (coordinateToNuremberg_injective example_full
           (set_temporal (Some "2024-06-04T12:00:00Z")
              (set_sector (SectorStr "541511") example_full)));
    reflexivity.
Defined.

(** X16.  [coordinate_hash] does not tell apart what the Nuremberg string
    does not: a numeric sector and the sector string of its numeral, an
    empty honeycomb array, the array of one empty entry and an absent
    honeycomb, an empty branch and an absent one all hash alike. *)
Theorem coordinate_hash_conflates (coord : AxisCoordinate) (n : Z) :
  coordinate_hash (set_sector (SectorNum n) coord)
  = coordinate_hash (set_sector (SectorStr (decimal_numeral n)) coord)
  /\ coordinate_hash (set_honeycomb (Some []) coord)
     = coordinate_hash (set_honeycomb None coord)
  /\ coordinate_hash (set_honeycomb (Some [""]) coord)
     = coordinate_hash (set_honeycomb None coord)
  /\ coordinate_hash (set_branch (Some "") coord)
     = coordinate_hash (set_branch None coord).
Proof. repeat split. Qed.

Lemma decimal_numeral_nonempty (n : Z) : is_empty (decimal_numeral n) = false.
Proof.
  unfold decimal_numeral, NilZero.string_of_int.
  destruct (Z.to_int n) as [d|d]; [|reflexivity].
  destruct d; reflexivity.
Qed.

Lemma is_empty_append (a b : string) :
  is_empty (a ++ b) = is_empty a && is_empty b.
Proof. destruct a; reflexivity. Qed.

(** Whatever the number, its text is not empty. *)
Lemma Number_toString_nonempty (n : Z) : is_empty (Number_toString n) = false.
Proof.
  unfold Number_toString.
  destruct (isSafeInteger n); [apply decimal_numeral_nonempty|].
  destruct (nearest_double (Z.abs n)) as [x|].
  - destruct (shortest_digits _ x) as [v p].
    rewrite is_empty_append.
    destruct (v <? 10 ^ 21)%Z.
    + now rewrite decimal_numeral_nonempty, andb_false_r.
    + unfold exponent_form.
      pose proof (decimal_numeral_nonempty (v / 10 ^ Z.of_nat p)) as H.
      destruct (decimal_numeral (v / 10 ^ Z.of_nat p)) as [|d [|e r]];
        [discriminate H| |]; apply andb_false_r.
  - rewrite is_empty_append. apply andb_false_r.
Qed.

Lemma filled_or_empty_slot (v : option AxisValue) :
  bit (is_filled v)
  = bit (negb (is_empty (nuremberg_slot v)))
    + match v with
      | Some (VArray l) => empty_entry (Some l)
      | _ => 0
      end.
Proof.
  destruct v as [[s|n|l]|]; cbn [is_filled nuremberg_slot opt_toString].
  - rewrite or_else_empty. lia.
  - rewrite or_else_empty, Number_toString_nonempty. reflexivity.
  - destruct l as [|x [|y l]]; [reflexivity| |].
    + destruct x; reflexivity.
    + change (join "," (x :: y :: l))
        with (x ++ String "," (join "," (y :: l)))%string.
      destruct x; reflexivity.
  - reflexivity.
Qed.

Lemma nonempty_slots_sum (coord : AxisCoordinate) :
  nonempty_slots coord
  = list_sum
      (map (fun key => bit (negb (is_empty (nuremberg_slot (coord_get coord key)))))
         AXIS_KEYS).
Proof.
  unfold nonempty_slots, coordinateToArray.
  now rewrite filter_length_sum, !map_map.
Qed.

(** X17.  The backend's filled-axes count is the number of slots of the
    Nuremberg string that are not empty, plus one when the honeycomb is the
    array of one empty entry (filled for the count, empty in the
    string). *)
Theorem filled_count_and_slots (coord : AxisCoordinate) :
  get_filled_axes_count coord
  = nonempty_slots coord + empty_entry (honeycomb coord).
Proof.
  rewrite get_filled_axes_count_sum, nonempty_slots_sum.
  cbn [map AXIS_KEYS]. unfold list_sum. cbn [fold_right].
  rewrite !filled_or_empty_slot.
  assert (Hs : forall o : option string,
             match option_map VString o with
             | Some (VArray l) => empty_entry (Some l)
             | _ => 0
             end = 0) by (intros [s|]; reflexivity).
  cbn [coord_get]. rewrite !Hs.
  destruct (sector coord), (honeycomb coord) as [l|];
    cbn [sector_value option_map];
    try change (empty_entry None) with 0; lia.
Qed.

Lemma sum_bits_all (f : AxisKey -> bool) (l : list AxisKey) :
  list_sum (map (fun k => bit (f k)) l) <= List.length l
  /\ (list_sum (map (fun k => bit (f k)) l) = List.length l
      <-> forallb f l = true)
  /\ (list_sum (map (fun k => bit (f k)) l) = 0
      <-> forallb (fun k => negb (f k)) l = true).
Proof.
  induction l as [|a l IH]; [simpl; repeat split; auto|].
  destruct IH as (Hle & Hall & Hnone).
  change (list_sum (map (fun k => bit (f k)) (a :: l)))
    with (bit (f a) + list_sum (map (fun k => bit (f k)) l)).
  cbn [List.length forallb].
  destruct (f a); cbn [bit negb andb]; split; try lia; split; split;
    intros H; try discriminate; try lia.
  - apply Hall. lia.
  - apply Hall in H. lia.
  - apply Hnone. lia.
  - apply Hnone in H. lia.
Qed.

(** X18.  The completeness ratio is 1 exactly when every one of the
    sixteen axes is filled, and 0 exactly when none is. *)
Theorem completeness_extremes (coord : AxisCoordinate) :
  ((get_axis_completeness_ratio coord == 1)%Q
   <-> forallb (fun key => is_filled (coord_get coord key)) AXIS_KEYS = true)
  /\ ((get_axis_completeness_ratio coord == 0)%Q
      <-> forallb (fun key => negb (is_filled (coord_get coord key))) AXIS_KEYS
          = true).
Proof.
  destruct (sum_bits_all (fun key => is_filled (coord_get coord key)) AXIS_KEYS)
    as (_ & Hall & Hnone).
  rewrite <- get_filled_axes_count_sum in Hall, Hnone.
  rewrite <- Hall, <- Hnone.
  unfold get_axis_completeness_ratio, Qeq. cbn [Qnum Qden List.length AXIS_KEYS].
  change (Pos.of_nat 16) with 16%positive.
  split; split; intros H; lia.
Qed.

(** X19.  Writing an axis changes the filled-axes count by what changes
    at that axis and nothing else: the count after, plus whether the axis
    was filled, is the count before, plus whether the new value is
    filled. *)
Theorem get_filled_axes_count_after_write (key : AxisKey) (v : AxisValue)
  (coord : AxisCoordinate)
  (Hadmits : admits key v = true) :
  get_filled_axes_count (coord_set key v coord)
  + bit (is_filled (coord_get coord key))
  = get_filled_axes_count coord + bit (is_filled (Some v)).
Proof.
  rewrite !get_filled_axes_count_sum.
  pose proof (coord_get_set_same key v coord Hadmits) as Hsame.
  pose proof (fun k => coord_get_set_other key k v coord) as Hother.
  cbn [map AXIS_KEYS]. unfold list_sum. cbn [fold_right].
  destruct key; rewrite Hsame, ?Hother by discriminate; lia.
Qed.

Lemma get_filled_axes_count_after_write_witness :
  get_filled_axes_count
    (coord_set K_honeycomb (VArray []) example_full)
  + 1
  = get_filled_axes_count example_full + 0.
Proof.
  exact (get_filled_axes_count_after_write K_honeycomb (VArray [])
           example_full eq_refl).
Defined.

(** ** The system identifier and the temporal validator *)

(** X20.  [unified_system_id] reads the pillar, the sector and the
    location and nothing else: writing any other axis leaves the identifier
    as it was. *)
Theorem unified_system_id_other_axes (key : AxisKey) (v : AxisValue)
  (coord : AxisCoordinate)
  (Hother : identifier_axis key = false) :
  unified_system_id (coord_set key v coord) = unified_system_id coord.
Proof.
  apply unified_system_id_of_fields;
    destruct key, v; try reflexivity; discriminate Hother.
Qed.

Lemma unified_system_id_other_axes_witness :
  unified_system_id (coord_set K_regulatory (VString "HIPAA") example_full)
  = unified_system_id example_full.
Proof.
  exact (unified_system_id_other_axes K_regulatory (VString "HIPAA")
           example_full eq_refl).
Defined.

(** A write of the pillar does change the identifier of the filled
    example. *)
Example unified_system_id_pillar_written :
  unified_system_id (coord_set K_pillar (VString "PL01.1.1") example_full)
  = "0f286abcc60a4792671829f960ed989d6bce17dbd06093cdf5e0a15374ea16b6"
  /\ unified_system_id (coord_set K_pillar (VString "PL01.1.1") example_full)
     <> unified_system_id example_full.
Proof. vm_compute. split; [reflexivity|discriminate]. Qed.

(** X21.  [unified_system_id] formats its three fields into one string
    before hashing, so it conflates coordinates: an absent location and the
    empty one, an [int] sector and the [str] sector of its numeral, and a
    [|] inside the pillar or the sector and the separator all give the same
    identifier. *)
Theorem unified_system_id_conflates (coord : AxisCoordinate) (a b c : string)
  (n : Z)
  (Hlocation : location coord = None) :
  unified_system_id (coord_set K_location (VString "") coord)
  = unified_system_id coord
  /\ unified_system_id (set_sector (SectorNum n) coord)
     = unified_system_id (set_sector (SectorStr (decimal_numeral n)) coord)
  /\ unified_system_id
       (coord_set K_pillar (VString (a ++ "|" ++ b))
          (coord_set K_sector (VString c) coord))
     = unified_system_id
         (coord_set K_pillar (VString a)
            (coord_set K_sector (VString (b ++ "|" ++ c)) coord)).
Proof.
  unfold unified_system_id.
  cbn [coord_set pillar sector location set_sector format_sector].
  rewrite Hlocation. cbn [or_empty].
  repeat split. f_equal. now rewrite !append_assoc.
Qed.

Lemma unified_system_id_conflates_witness :
  unified_system_id (coord_set K_location (VString "") example_coordinate)
  = unified_system_id example_coordinate.
Proof.
  exact (proj1 (unified_system_id_conflates example_coordinate "a" "b" "c"
                  5415%Z eq_refl)).
Defined.

Section TemporalValidator.

Variable fromisoformat : string -> option DateTime.

(** X22.  [validate_temporal] hands back the value it was given, never a
    rewritten one; a timestamp without [Z] is checked as it stands, and a
    timestamp whose only [Z] is its last character is accepted exactly when
    the parser accepts the same text with [+00:00] in place of the [Z]. *)
Theorem validate_temporal_utc_suffix (s : string) (v v' : option string)
  (HnoZ : contains_char "Z" s = false)
  (Haccepted : validate_temporal fromisoformat v = Ok v') :
  v' = v
  /\ validate_temporal fromisoformat (Some s)
     = match fromisoformat s with
       | Some _ => Ok (Some s)
       | None => Raise "Temporal must be valid ISO 8601 format"
       end
  /\ validate_temporal fromisoformat (Some (s ++ "Z")%string)
     = match fromisoformat (s ++ "+00:00")%string with
       | Some _ => Ok (Some (s ++ "Z")%string)
       | None => Raise "Temporal must be valid ISO 8601 format"
       end.
Proof.
  destruct (str_replace_suffix s HnoZ) as (E1 & _ & E2 & _).
  split; [|split].
  - destruct v as [t|]; cbn [validate_temporal] in Haccepted.
    + destruct (fromisoformat _); [|discriminate]. now injection Haccepted.
    + now injection Haccepted.
  - cbn [validate_temporal]. now rewrite E1.
  - cbn [validate_temporal]. now rewrite E2.
Qed.

End TemporalValidator.

Lemma validate_temporal_utc_suffix_witness :
  validate_temporal Iso8601.fromisoformat (Some "2024-06-04T12:00:00Z")
  = Ok (Some "2024-06-04T12:00:00Z").
Proof.
  refine (let H := validate_temporal_utc_suffix Iso8601.fromisoformat
                     "2024-06-04T12:00:00" None None eq_refl eq_refl in
          proj2 (proj2 H)).
Defined.
